(** * A Twilio <-> ElevenLabs voice relay (index.js), embedded and verified

    The program is one Fastify server: three HTTP routes and one WebSocket
    route.  For every carrier (Twilio) connection on /media-stream it opens a
    second socket to the conversational AI (ElevenLabs) and relays JSON frames
    between the two.

    The embedding follows the JavaScript text:
    - [JS]     JavaScript values as JSON.parse delivers them, truthiness,
               property reads and the TypeError they raise on null/undefined;
    - [Monad]  a small monad for listener bodies: mutable closure state, a trace
               of the calls made on the outside world, and exceptions with
               try/catch;
    - [Relay]  the /media-stream closure: [streamSid], the listeners registered
               on both sockets, and the delivery of socket events to them;
    - [Http]   the process configuration and the HTTP route handlers. *)

From Stdlib Require Import Floats Ascii String List Bool ZArith Lia.
Import ListNotations.
Local Open Scope string_scope.
Local Open Scope list_scope.

(* ================================================================== *)
(** ** JavaScript values *)

Module JS.

(** What JSON.parse can return, plus [Undefined], the result of reading a
    member that is not there.  Numbers are IEEE binary64, as in JavaScript.
    An object is the list of its own members; only the first entry for a key
    is visible. *)
#[warnings="-register-all"]
Inductive value : Type :=
| Undefined
| Null
| Bool (b : bool)
| Num (n : float)
| Str (s : string)
| Arr (elements : list value)
| Obj (members : list (string * value)).

Inductive exn : Type :=
| SyntaxError                 (* JSON.parse on text that is not JSON *)
| TypeError                   (* a member read on null or undefined *)
| HostError (what : string).  (* an error object handed in by a library *)

(** The completion of an expression: a value, or a throw. *)
Inductive completion (A : Type) : Type :=
| Normal (a : A)
| Throw (e : exn).
Arguments Normal {A} a.
Arguments Throw {A} e.

(** ToBoolean.  Falsy: undefined, null, false, +0, -0, NaN and the empty
    string; everything else, objects and arrays included, is truthy. *)
Definition truthy (v : value) : bool :=
  match v with
  | Undefined | Null => false
  | Bool b => b
  | Num n => negb (PrimFloat.is_zero n || PrimFloat.is_nan n)
  | Str s => negb (s =? "")
  | Arr _ | Obj _ => true
  end.

Fixpoint lookup (k : string) (members : list (string * value)) : value :=
  match members with
  | [] => Undefined
  | (k', v) :: rest => if k' =? k then v else lookup k rest
  end.

(** [v.k].  Reading a member of null or undefined throws; an object yields
    its own member, and undefined when it has none of that name.  Inherited
    members are left out: the builtin prototypes hold none of the names this
    program reads (type, audio_event, audio_base_64, ping_event, event_id,
    event, start, streamSid, media, payload, to, sid), so on a boolean, a
    number, a string or an array these reads give undefined. *)
Definition get (v : value) (k : string) : completion value :=
  match v with
  | Undefined | Null => Throw TypeError
  | Obj members => Normal (lookup k members)
  | Bool _ | Num _ | Str _ | Arr _ => Normal Undefined
  end.

(** [v?.k]: undefined instead of a throw when [v] is null or undefined. *)
Definition get_opt (v : value) (k : string) : completion value :=
  match v with
  | Undefined | Null => Normal Undefined
  | _ => get v k
  end.

(** [v === "s"], as a [switch] over string cases compares. *)
Definition is_str (v : value) (s : string) : bool :=
  match v with
  | Str t => t =? s
  | _ => false
  end.

Definition has_own (k : string) (members : list (string * value)) : bool :=
  existsb (fun member => fst member =? k) members.

(** Whether converting [v] to a string throws.  A parsed object converts
    through the inherited toString unless it has a member of its own named
    toString, which, coming from JSON, is not a function: then the conversion
    ends in a TypeError.  An array joins the conversions of its elements
    (null and undefined elements count as empty).  The other values always
    convert. *)
Fixpoint cannot_convert_to_string (v : value) : bool :=
  match v with
  | Obj members => has_own "toString" members
  | Arr elements => existsb cannot_convert_to_string elements
  | Undefined | Null | Bool _ | Num _ | Str _ => false
  end.

(** A hole [${v}] of a template literal: the value to print, or the
    TypeError of its conversion. *)
Definition interpolate (v : value) : completion value :=
  if cannot_convert_to_string v then Throw TypeError else Normal v.

(** A socket frame as JSON.parse sees it: text that is not JSON, or JSON text,
    given by the value it denotes. *)
Inductive frame : Type :=
| Unparseable (text : string)
| Parsed (v : value).

Definition JSON_parse (data : frame) : completion value :=
  match data with
  | Unparseable _ => Throw SyntaxError
  | Parsed v => Normal v
  end.

(** The member reached by a chain of reads [v.k1.k2...]; statements about
    frames use it to say what a frame carries. *)
Fixpoint path (ks : list string) (v : value) : completion value :=
  match ks with
  | [] => Normal v
  | k :: rest =>
      match get v k with
      | Normal w => path rest w
      | Throw e => Throw e
      end
  end.

End JS.
Import JS.

(* ================================================================== *)
(** ** Calls on the outside world *)

(** The two sockets of a /media-stream session, under their source names:
    [connection] is the carrier's socket, [elevenLabsWs] the AI's. *)
Inductive socket : Type := connection | elevenLabsWs.

(** WebSocket.readyState. *)
Inductive readyState : Type := CONNECTING | OPEN | CLOSING | CLOSED.

Definition is_OPEN (r : readyState) : bool :=
  match r with OPEN => true | _ => false end.

Inductive level : Type := console_info_level | console_log_level | console_error_level.

(** One argument (or template hole) of a console call. *)
Inductive logged : Type :=
| Text (s : string)
| Val (v : value)
| Err (e : exn).

(** Options of twilioClient.calls.create. *)
Record call_options : Type := { url : string; to : value; from : value }.

(** Everything the program does to its surroundings, in program order.
    [Send s m] is the call [s.send(JSON.stringify(m))], with [m] the object
    handed to JSON.stringify; [Close s] is [s.close()]; [Reply] is
    [reply.status(..).type(..).send(..)].  The trace records the calls the
    program makes; whether the socket library then transmits a message (it
    drops one sent on a socket that is closing or closed) is not part of it. *)
Inductive effect : Type :=
| Send (s : socket) (message : value)
| Close (s : socket)
| Console (l : level) (args : list logged)
| CallsCreate (options : call_options)
| Reply (status : Z) (content_type : option string) (payload : value).

(* ================================================================== *)
(** ** The listener monad *)

Module Monad.

Section WithState.
Context {S : Type}.

(** A computation reads and writes the closure state [S], appends to the
    trace of effects, and completes normally or throws.  State changes and
    effects made before a throw stay. *)
Definition js (A : Type) : Type := S -> completion A * S * list effect.

Definition ret {A} (a : A) : js A := fun s => (Normal a, s, []).

Definition bind {A B} (m : js A) (k : A -> js B) : js B :=
  fun s =>
    match m s with
    | (Normal a, s1, t1) => let '(r, s2, t2) := k a s1 in (r, s2, t1 ++ t2)
    | (Throw e, s1, t1) => (Throw e, s1, t1)
    end.

Definition throw {A} (e : exn) : js A := fun s => (Throw e, s, []).

Definition eval {A} (c : completion A) : js A := fun s => (c, s, []).

Definition emit (e : effect) : js unit := fun s => (Normal tt, s, [e]).

Definition read {A} (f : S -> A) : js A := fun s => (Normal (f s), s, []).

Definition modify (f : S -> S) : js unit := fun s => (Normal tt, f s, []).

(** try { body } catch (err) { handler err } *)
Definition try_catch (body : js unit) (handler : exn -> js unit) : js unit :=
  fun s =>
    match body s with
    | (Normal a, s1, t1) => (Normal a, s1, t1)
    | (Throw e, s1, t1) => let '(r, s2, t2) := handler e s1 in (r, s2, t1 ++ t2)
    end.

Definition console (l : level) (args : list logged) : js unit :=
  emit (Console l args).
End WithState.

Arguments js : clear implicits.

Declare Scope js_scope.
Delimit Scope js_scope with js.
Notation "x <- m ;; k" := (bind m (fun x => k))
  (at level 61, m at next level, right associativity) : js_scope.
Notation "m ;; k" := (bind m (fun _ => k))
  (at level 61, right associativity) : js_scope.

End Monad.
Import Monad.
Local Open Scope js_scope.

(* ================================================================== *)
(** ** The relay: the /media-stream connection handler *)

Module Relay.

(** The state one /media-stream connection closes over: the variable
    [streamSid] and the readyState of the two socket objects. *)
Record session : Type := {
  streamSid : value;
  elevenLabsWs_readyState : readyState;
  connection_readyState : readyState
}.

(** State on entry of the handler: [let streamSid = null], the carrier socket
    accepted, and [new WebSocket(...)] still connecting. *)
Definition initial : session :=
  {| streamSid := Null;
     elevenLabsWs_readyState := CONNECTING;
     connection_readyState := OPEN |}.

Definition readyState_of (k : socket) (s : session) : readyState :=
  match k with
  | connection => connection_readyState s
  | elevenLabsWs => elevenLabsWs_readyState s
  end.

Definition set_readyState (k : socket) (r : readyState) (s : session) : session :=
  match k with
  | connection =>
      {| streamSid := streamSid s;
         elevenLabsWs_readyState := elevenLabsWs_readyState s;
         connection_readyState := r |}
  | elevenLabsWs =>
      {| streamSid := streamSid s;
         elevenLabsWs_readyState := r;
         connection_readyState := connection_readyState s |}
  end.

Definition set_streamSid (v : value) (s : session) : session :=
  {| streamSid := v;
     elevenLabsWs_readyState := elevenLabsWs_readyState s;
     connection_readyState := connection_readyState s |}.

(** The socket library's side of [close()]: a socket that is connecting or
    open starts closing; one that is closing or closed stays as it is. *)
Definition closing (r : readyState) : readyState :=
  match r with
  | CONNECTING | OPEN => CLOSING
  | CLOSING | CLOSED => r
  end.

(** The socket library's side of the "open" event: only a connecting socket
    opens; a socket never reopens. *)
Definition opened (r : readyState) : readyState :=
  match r with
  | CONNECTING => OPEN
  | _ => r
  end.

(** The socket library's side of the "error" event: the socket is set to
    closing before the event is emitted; a closed socket stays closed. *)
Definition errored (r : readyState) : readyState :=
  match r with
  | CONNECTING | OPEN | CLOSING => CLOSING
  | CLOSED => CLOSED
  end.

Definition send (k : socket) (message : value) : js session unit :=
  emit (Send k message).

Definition close (k : socket) : js session unit :=
  emit (Close k) ;;
  modify (fun s => set_readyState k (closing (readyState_of k s)) s).

(** *** Messages from ElevenLabs *)

Definition handleElevenLabsMessage (message : value) : js session unit :=
  type <- eval (get message "type") ;;
  if is_str type "conversation_initiation_metadata" then
    console console_info_level [Text "[II] Conversation initiated."]
  else if is_str type "audio" then
    audio_event <- eval (get message "audio_event") ;;
    audio_base_64 <- eval (get_opt audio_event "audio_base_64") ;;
    if truthy audio_base_64 then
      sid <- read streamSid ;;
      audio_event <- eval (get message "audio_event") ;;
      payload <- eval (get audio_event "audio_base_64") ;;
      send connection
        (Obj [("event", Str "media"); ("streamSid", sid);
              ("media", Obj [("payload", payload)])])
    else ret tt
  else if is_str type "interruption" then
    sid <- read streamSid ;;
    send connection (Obj [("event", Str "clear"); ("streamSid", sid)])
  else if is_str type "ping" then
    ping_event <- eval (get message "ping_event") ;;
    event_id <- eval (get_opt ping_event "event_id") ;;
    if truthy event_id then
      ping_event <- eval (get message "ping_event") ;;
      event_id <- eval (get ping_event "event_id") ;;
      send elevenLabsWs (Obj [("type", Str "pong"); ("event_id", event_id)])
    else ret tt
  else ret tt.

Definition elevenLabsWs_on_open : js session unit :=
  console console_log_level [Text "[II] Connected to Conversational AI."].

Definition elevenLabsWs_on_error (err : exn) : js session unit :=
  console console_error_level [Text "[II] WebSocket error:"; Err err].

Definition elevenLabsWs_on_close : js session unit :=
  console console_log_level [Text "[II] Disconnected."].

Definition elevenLabsWs_on_message (data : frame) : js session unit :=
  try_catch
    (message <- eval (JSON_parse data) ;;
     handleElevenLabsMessage message)
    (fun err => console console_error_level [Text "[II] Error parsing message:"; Err err]).

(** *** Messages from Twilio *)

Definition connection_on_message (message : frame) : js session unit :=
  try_catch
    (data <- eval (JSON_parse message) ;;
     event <- eval (get data "event") ;;
     if is_str event "start" then
       start <- eval (get data "start") ;;
       sid <- eval (get start "streamSid") ;;
       modify (set_streamSid sid) ;;
       sid <- read streamSid ;;
       shown <- eval (interpolate sid) ;;
       console console_log_level [Text "[Twilio] Stream started with ID: "; Val shown]
     else if is_str event "media" then
       state <- read (readyState_of elevenLabsWs) ;;
       if is_OPEN state then
         media <- eval (get data "media") ;;
         payload <- eval (get media "payload") ;;
         send elevenLabsWs (Obj [("user_audio_chunk", payload)])
       else ret tt
     else if is_str event "stop" then
       state <- read (readyState_of elevenLabsWs) ;;
       if is_OPEN state then close elevenLabsWs else ret tt
     else
       shown <- eval (interpolate event) ;;
       console console_log_level [Text "[Twilio] Unhandled event: "; Val shown])
    (fun err => console console_error_level [Text "[Twilio] Error processing message:"; Err err]).

(** *** Cleanup *)

Definition connection_on_close : js session unit :=
  state <- read (readyState_of elevenLabsWs) ;;
  (if is_OPEN state then close elevenLabsWs else ret tt) ;;
  console console_log_level [Text "[Twilio] Client disconnected"].

Definition connection_on_error (err : exn) : js session unit :=
  console console_error_level [Text "[Twilio] WebSocket error:"; Err err] ;;
  state <- read (readyState_of elevenLabsWs) ;;
  if is_OPEN state then close elevenLabsWs else ret tt.

(** *** Socket events *)

(** What the two sockets can report to the session. *)
Inductive event : Type :=
| ElevenLabsOpen
| ElevenLabsMessage (data : frame)
| ElevenLabsError (err : exn)
| ElevenLabsClose
| TwilioMessage (message : frame)
| TwilioError (err : exn)
| TwilioClose.

(** Running a listener: its state change and its effects.  An exception
    leaving a listener would be dropped here; none of the listeners above
    lets one out. *)
Definition listen (l : js session unit) (s : session) : session * list effect :=
  let '(_, s', t) := l s in (s', t).

(** Delivery of one event.  The socket library moves the readyState of the
    socket concerned before it calls the listener: to open on "open" (of a
    connecting socket), to closing on "error", to closed on "close". *)
Definition deliver (e : event) (s : session) : session * list effect :=
  match e with
  | ElevenLabsOpen =>
      listen elevenLabsWs_on_open
        (set_readyState elevenLabsWs (opened (elevenLabsWs_readyState s)) s)
  | ElevenLabsMessage data => listen (elevenLabsWs_on_message data) s
  | ElevenLabsError err =>
      listen (elevenLabsWs_on_error err)
        (set_readyState elevenLabsWs (errored (elevenLabsWs_readyState s)) s)
  | ElevenLabsClose => listen elevenLabsWs_on_close (set_readyState elevenLabsWs CLOSED s)
  | TwilioMessage message => listen (connection_on_message message) s
  | TwilioError err =>
      listen (connection_on_error err)
        (set_readyState connection (errored (connection_readyState s)) s)
  | TwilioClose => listen connection_on_close (set_readyState connection CLOSED s)
  end.

(** A session's history: the events in arrival order, each run to completion
    before the next (single-threaded event loop). *)
Fixpoint run (es : list event) (s : session) : session * list effect :=
  match es with
  | [] => (s, [])
  | e :: rest =>
      let '(s1, t1) := deliver e s in
      let '(s2, t2) := run rest s1 in
      (s2, t1 ++ t2)
  end.

Definition state_after (es : list event) (s : session) : session := fst (run es s).
Definition trace_of (es : list event) (s : session) : list effect := snd (run es s).

(** A carrier frame whose [event] is "start". *)
Definition is_start (e : event) : bool :=
  match e with
  | TwilioMessage (Parsed data) =>
      match get data "event" with
      | Normal event => is_str event "start"
      | Throw _ => false
      end
  | _ => false
  end.

(** A socket on its way out: closing or closed. *)
Definition is_closing_or_closed (r : readyState) : bool :=
  match r with
  | CLOSING | CLOSED => true
  | CONNECTING | OPEN => false
  end.

(** A forwarded caller-audio chunk: a message with a [user_audio_chunk]
    member sent on the AI socket. *)
Definition is_forwarded_media (x : effect) : bool :=
  match x with
  | Send elevenLabsWs (Obj (("user_audio_chunk", _) :: _)) => true
  | _ => false
  end.

End Relay.

(* ================================================================== *)
(** ** Configuration and the HTTP routes *)

Module Http.

(** process.env, reduced to the variables the program reads. *)
Record env : Type := {
  ELEVENLABS_AGENT_ID : option string;
  TWILIO_ACCOUNT_SID : option string;
  TWILIO_AUTH_TOKEN : option string;
  TWILIO_PHONE_NUMBER : option string;
  RENDER_EXTERNAL_URL : option string;
  env_PORT : option string
}.

(** [a || b] on an environment variable: unset and empty are both falsy. *)
Definition or_else (a : option string) (b : string) : string :=
  match a with
  | Some s => if s =? "" then b else s
  | None => b
  end.

Definition is_set (a : option string) : bool :=
  match a with
  | Some s => negb (s =? "")
  | None => false
  end.

(** The check that precedes [process.exit(1)]. *)
Definition missing_required (e : env) : bool :=
  negb (is_set (ELEVENLABS_AGENT_ID e)) || negb (is_set (TWILIO_ACCOUNT_SID e))
  || negb (is_set (TWILIO_AUTH_TOKEN e)) || negb (is_set (TWILIO_PHONE_NUMBER e)).

(** [process.env.PORT || 8000], as the template literal prints it. *)
Definition PORT (e : env) : string := or_else (env_PORT e) "8000".

Definition BASE_URL (e : env) : string :=
  or_else (RENDER_EXTERNAL_URL e) ("http://localhost:" ++ PORT e)%string.

Definition env_value (a : option string) : value :=
  match a with
  | Some s => Str s
  | None => Undefined
  end.

Fixpoint drop (n : nat) (s : string) : string :=
  match n, s with
  | O, _ => s
  | Datatypes.S n', String _ rest => drop n' rest
  | Datatypes.S _, EmptyString => EmptyString
  end.

(** [u.replace(/^https?:\/\//, "")] *)
Definition strip_scheme (u : string) : string :=
  if String.prefix "https://" u then drop 8 u
  else if String.prefix "http://" u then drop 7 u
  else u.

Definition dq : string := String "034"%char EmptyString.
Definition nl : string := String "010"%char EmptyString.

(** What the request handlers can see of a request. *)
Record request : Type := { method : string; body : value }.

Definition handler : Type := js unit unit.

Definition reply (status : Z) (content_type : option string) (payload : value) : handler :=
  emit (Reply status content_type payload).

Section Routes.
Variable e : env.

(** twilioClient.calls.create as the handler meets it: the promise resolves
    with a call object or rejects. *)
Variable calls_create : call_options -> completion value.

(** The HTTP methods the framework supports (fastify.supportedMethods); the
    list belongs to the framework, not to this program. *)
Variable supportedMethods : list string.

Definition twilioClient_calls_create (o : call_options) : js unit value :=
  emit (CallsCreate o) ;; eval (calls_create o).

(** fastify.get("/") *)
Definition health (_ : request) : handler :=
  reply 200 None (Obj [("message", Str "Server is running")]).

(** The opening tag of the TwiML <Stream> element, up to its closing quote. *)
Definition stream_tag (host : string) : string :=
  ("<Stream url=" ++ dq ++ "wss://" ++ host ++ "/media-stream" ++ dq)%string.

Definition twimlResponse : string :=
  ("<?xml version=" ++ dq ++ "1.0" ++ dq ++ " encoding=" ++ dq ++ "UTF-8" ++ dq ++ "?>" ++ nl
   ++ "    <Response>" ++ nl
   ++ "      <Connect>" ++ nl
   ++ "        " ++ stream_tag (strip_scheme (BASE_URL e)) ++ " />" ++ nl
   ++ "      </Connect>" ++ nl
   ++ "    </Response>")%string.

(** fastify.all("/incoming-call-eleven") *)
Definition incoming_call_eleven (_ : request) : handler :=
  reply 200 (Some "text/xml") (Str twimlResponse).

(** fastify.post("/make-outbound-call").  [call.sid] is the identifier string
    of the call resource the provider returns; the log line prints it as it
    is. *)
Definition make_outbound_call (r : request) : handler :=
  to <- eval (get (body r) "to") ;;
  if negb (truthy to) then
    reply 400 None (Obj [("error", Str "Destination phone number is required")])
  else
    try_catch
      (call <- twilioClient_calls_create
                 {| url := (BASE_URL e ++ "/incoming-call-eleven")%string;
                    to := to;
                    from := env_value (TWILIO_PHONE_NUMBER e) |} ;;
       sid <- eval (get call "sid") ;;
       console console_log_level [Text "[Twilio] Outbound call initiated: "; Val sid] ;;
       sid <- eval (get call "sid") ;;
       reply 200 None (Obj [("message", Str "Call initiated"); ("callSid", sid)]))
      (fun err =>
         console console_error_level [Text "[Twilio] Error initiating call:"; Err err] ;;
         reply 500 None (Obj [("error", Str "Failed to initiate call")])).

(** The registrations, in source order: the registering verb, the path and
    the handler.  /media-stream is the WebSocket route of [Relay].  A route
    registered with [get] also answers HEAD, one registered with [all]
    answers every supported method, one registered with [post] only POST. *)
Inductive verb : Type := get_ | all_ | post_.

Inductive route : Type :=
| Health | IncomingCallEleven | MediaStream | MakeOutboundCall.

Definition routes : list (verb * string * route) :=
  [ (get_, "/", Health);
    (all_, "/incoming-call-eleven", IncomingCallEleven);
    (get_, "/media-stream", MediaStream);
    (post_, "/make-outbound-call", MakeOutboundCall) ].

Definition accepts (v : verb) (m : string) : bool :=
  match v with
  | all_ => existsb (String.eqb m) supportedMethods
  | get_ => (m =? "GET") || (m =? "HEAD")
  | post_ => m =? "POST"
  end.

Fixpoint find_route (table : list (verb * string * route)) (m path : string) : option route :=
  match table with
  | [] => None
  | (v, p, r) :: rest =>
      if (p =? path) && accepts v m then Some r else find_route rest m path
  end.

(** One HTTP exchange: how the handler completed and what it did.  [None]
    when no HTTP handler of this program is registered for the request. *)
Definition serve (path : string) (r : request) : option (completion unit * list effect) :=
  let run (h : handler) := let '(c, _, t) := h tt in Some (c, t) in
  match find_route routes (method r) path with
  | Some Health => run (health r)
  | Some IncomingCallEleven => run (incoming_call_eleven r)
  | Some MakeOutboundCall => run (make_outbound_call r)
  | Some MediaStream | None => None
  end.
End Routes.

End Http.

Import Relay Http.

(* ================================================================== *)
(** ** Sample frames and requests *)

Module Sample.

Definition start_frame (sid : string) : value :=
  Obj [("event", Str "start"); ("start", Obj [("streamSid", Str sid)])].

Definition media_frame (chunk : string) : value :=
  Obj [("event", Str "media"); ("media", Obj [("payload", Str chunk)])].

Definition stop_frame : value := Obj [("event", Str "stop")].

Definition audio_message (audio_base_64 : value) : value :=
  Obj [("type", Str "audio"); ("audio_event", Obj [("audio_base_64", audio_base_64)])].

(** An audio message whose [audio_event] has no [audio_base_64] member. *)
Definition audio_message_without_payload : value :=
  Obj [("type", Str "audio"); ("audio_event", Obj [("event_id", Num 7%float)])].

Definition interruption_message : value :=
  Obj [("type", Str "interruption"); ("interruption_event", Obj [("event_id", Num 7%float)])].

Definition ping_message (event_id : value) : value :=
  Obj [("type", Str "ping"); ("ping_event", Obj [("event_id", event_id)])].

(** A session in mid-call: stream "MZ1" started, both sockets open. *)
Definition in_call : session :=
  {| streamSid := Str "MZ1";
     elevenLabsWs_readyState := OPEN;
     connection_readyState := OPEN |}.

Definition production : env :=
  {| ELEVENLABS_AGENT_ID := Some "agent_1";
     TWILIO_ACCOUNT_SID := Some "AC1";
     TWILIO_AUTH_TOKEN := Some "token";
     TWILIO_PHONE_NUMBER := Some "+15550000000";
     RENDER_EXTERNAL_URL := Some "https://relay.onrender.com";
     env_PORT := Some "10000" |}.

(** A provider that creates every call and names it "CA123". *)
Definition provider_ok (_ : call_options) : completion value :=
  Normal (Obj [("sid", Str "CA123"); ("status", Str "queued")]).

(** A provider whose call-creation request fails. *)
Definition provider_down (_ : call_options) : completion value :=
  Throw (HostError "RestException").

Definition post (b : value) : request := {| method := "POST"; body := b |}.

(** The methods a Fastify server supports when none has been added to it. *)
Definition standard_methods : list string :=
  ["GET"; "HEAD"; "TRACE"; "DELETE"; "OPTIONS"; "PATCH"; "PUT"; "POST"].

(** A WebDAV request, with a method outside [standard_methods]. *)
Definition propfind : request := {| method := "PROPFIND"; body := Undefined |}.

(** A developer's machine: the four required variables, no external URL, no
    PORT. *)
Definition local_dev : env :=
  {| ELEVENLABS_AGENT_ID := Some "agent_1";
     TWILIO_ACCOUNT_SID := Some "AC1";
     TWILIO_AUTH_TOKEN := Some "token";
     TWILIO_PHONE_NUMBER := Some "+15550000000";
     RENDER_EXTERNAL_URL := None;
     env_PORT := None |}.

End Sample.

Import Sample.

(* ================================================================== *)
(** ** Reading traces *)

Module Observe.

(** The events the AI socket raises; the others come from the carrier socket. *)
Definition is_elevenLabs_event (e : event) : bool :=
  match e with
  | ElevenLabsOpen | ElevenLabsMessage _ | ElevenLabsError _ | ElevenLabsClose => true
  | TwilioMessage _ | TwilioError _ | TwilioClose => false
  end.

Definition same_socket (a b : socket) : bool :=
  match a, b with
  | connection, connection | elevenLabsWs, elevenLabsWs => true
  | _, _ => false
  end.

Definition is_send_on (k : socket) (x : effect) : bool :=
  match x with
  | Send k' _ => same_socket k k'
  | _ => false
  end.

Definition is_close_of (k : socket) (x : effect) : bool :=
  match x with
  | Close k' => same_socket k k'
  | _ => false
  end.

Definition is_reply (x : effect) : bool :=
  match x with
  | Reply _ _ _ => true
  | _ => false
  end.

Definition is_calls_create (x : effect) : bool :=
  match x with
  | CallsCreate _ => true
  | _ => false
  end.

(** A console.error call. *)
Definition is_error_log (x : effect) : bool :=
  match x with
  | Console console_error_level _ => true
  | _ => false
  end.

(** How many effects of a trace satisfy [p]. *)
Definition count (p : effect -> bool) (t : list effect) : nat := length (filter p t).

(** The four message shapes the relay writes: to the carrier a media frame
    with a truthy payload or a clear frame, both with a [streamSid] member;
    to the AI a caller-audio chunk or a pong with a truthy [event_id]. *)
Definition protocol_message (k : socket) (m : value) : bool :=
  match k, m with
  | connection, Obj [(k1, e); (k2, _); (k3, Obj [(k4, p)])] =>
      (k1 =? "event") && is_str e "media" && (k2 =? "streamSid")
      && (k3 =? "media") && (k4 =? "payload") && truthy p
  | connection, Obj [(k1, e); (k2, _)] =>
      (k1 =? "event") && is_str e "clear" && (k2 =? "streamSid")
  | elevenLabsWs, Obj [(k1, _)] => k1 =? "user_audio_chunk"
  | elevenLabsWs, Obj [(k1, t); (k2, id)] =>
      (k1 =? "type") && is_str t "pong" && (k2 =? "event_id") && truthy id
  | _, _ => false
  end.

(** An effect that is no send, or a send of one of the four shapes. *)
Definition speaks_protocol (x : effect) : bool :=
  match x with
  | Send k m => protocol_message k m
  | _ => true
  end.

(** The history in which the carrier delivers the given frames, in order. *)
Definition from_twilio (frames : list value) : list event :=
  map (fun m => TwilioMessage (Parsed m)) frames.

(** The history in which the AI delivers the given messages, in order. *)
Definition from_elevenLabs (messages : list value) : list event :=
  map (fun m => ElevenLabsMessage (Parsed m)) messages.

(** A carrier media frame and the payload it carries. *)
Definition carries_chunk (frame_payload : value * value) : Prop :=
  path ["event"] (fst frame_payload) = Normal (Str "media")
  /\ path ["media"; "payload"] (fst frame_payload) = Normal (snd frame_payload).

(** An AI audio message and the truthy payload it carries. *)
Definition carries_audio (message_payload : value * value) : Prop :=
  path ["type"] (fst message_payload) = Normal (Str "audio")
  /\ path ["audio_event"; "audio_base_64"] (fst message_payload)
     = Normal (snd message_payload)
  /\ truthy (snd message_payload) = true.

End Observe.
Import Observe.

(* ================================================================== *)
(** ** Reasoning about listeners *)

(** Unfolds a listener down to its member reads and tests. *)
Ltac unfold_js :=
  cbv [deliver listen
       elevenLabsWs_on_open elevenLabsWs_on_error elevenLabsWs_on_close
       elevenLabsWs_on_message handleElevenLabsMessage
       connection_on_message connection_on_close connection_on_error
       send close console
       try_catch bind ret throw eval emit read modify JSON_parse].

(** Follows every branch a listener can take. *)
Ltac branches :=
  repeat match goal with
    | |- context [match get ?v ?k with _ => _ end] => destruct (get v k) eqn:?
    | |- context [match get_opt ?v ?k with _ => _ end] => destruct (get_opt v k) eqn:?
    | |- context [if is_str ?v ?k then _ else _] => destruct (is_str v k) eqn:?
    | |- context [if truthy ?v then _ else _] => destruct (truthy v) eqn:?
    | |- context [if is_OPEN ?r then _ else _] => destruct (is_OPEN r) eqn:?
    | |- context [match interpolate ?v with _ => _ end] => destruct (interpolate v) eqn:?
    end.

(** A chain of two reads, taken apart. *)
Lemma path2_inv (k1 k2 : string) (v w : value) :
  path [k1; k2] v = Normal w ->
  exists u, get v k1 = Normal u /\ get u k2 = Normal w.
Proof.
  cbn [path]. destruct (get v k1) as [u | ] eqn:E1; [ | discriminate ].
  destruct (get u k2) as [w' | ] eqn:E2; [ | discriminate ].
  intros [= <-]. exists u. split; [ reflexivity | exact E2 ].
Qed.

Lemma path1_inv (k : string) (v w : value) :
  path [k] v = Normal w -> get v k = Normal w.
Proof.
  cbn [path]. destruct (get v k); [ | discriminate ]. intros [= <-]. reflexivity.
Qed.

(** Where a plain read succeeds, the optional read agrees with it. *)
Lemma get_opt_get (v w : value) (k : string) :
  get v k = Normal w -> get_opt v k = Normal w.
Proof. destruct v; cbn; intros H; try discriminate; exact H. Qed.

Lemma state_after_cons (e : event) (es : list event) (s : session) :
  state_after (e :: es) s = state_after es (fst (deliver e s)).
Proof.
  unfold state_after. cbn [run].
  destruct (deliver e s) as [s1 t1]. cbn [fst snd].
  destruct (run es s1) as [s2 t2]. reflexivity.
Qed.

Lemma trace_of_cons (e : event) (es : list event) (s : session) :
  trace_of (e :: es) s = snd (deliver e s) ++ trace_of es (fst (deliver e s)).
Proof.
  unfold trace_of. cbn [run].
  destruct (deliver e s) as [s1 t1]. cbn [fst snd].
  destruct (run es s1) as [s2 t2]. reflexivity.
Qed.

(** Only a carrier start frame assigns [streamSid]. *)
Lemma deliver_keeps_streamSid (e : event) (s : session) :
  is_start e = false -> streamSid (fst (deliver e s)) = streamSid s.
Proof.
  destruct e as [ | [text | message] | err | | [text | data] | err | ];
    cbn [is_start]; intros Hstart; unfold_js; cbn [fst snd streamSid set_readyState];
    try reflexivity.
  - branches; reflexivity.
  - destruct (get data "event") as [event | ]; [ | reflexivity ].
    rewrite Hstart. branches; reflexivity.
  - branches; reflexivity.
  - branches; reflexivity.
Qed.

Lemma run_keeps_streamSid (es : list event) :
  forall s, existsb is_start es = false -> streamSid (state_after es s) = streamSid s.
Proof.
  induction es as [ | e es IH]; intros s H; [ reflexivity | ].
  cbn [existsb] in H. apply orb_false_iff in H as [He Hes].
  rewrite state_after_cons, IH by exact Hes.
  apply deliver_keeps_streamSid, He.
Qed.

(** A well-formed start frame records its [start.streamSid]. *)
Lemma start_records (s : session) (start sid : value) :
  path ["event"] start = Normal (Str "start") ->
  path ["start"; "streamSid"] start = Normal sid ->
  streamSid (fst (deliver (TwilioMessage (Parsed start)) s)) = sid.
Proof.
  intros He Hs. apply path1_inv in He. apply path2_inv in Hs as (u & Hu & Hsid).
  unfold_js. rewrite He. cbn. rewrite Hu, Hsid. cbn.
  destruct (interpolate sid); reflexivity.
Qed.

(** An "audio" message: one media frame to the carrier when
    [audio_event?.audio_base_64] is truthy, nothing otherwise. *)
Lemma audio_delivery (s : session) (audio audio_event b64 : value) :
  get audio "type" = Normal (Str "audio") ->
  get audio "audio_event" = Normal audio_event ->
  get_opt audio_event "audio_base_64" = Normal b64 ->
  deliver (ElevenLabsMessage (Parsed audio)) s =
    (s, if truthy b64
        then [Send connection
                (Obj [("event", Str "media"); ("streamSid", streamSid s);
                      ("media", Obj [("payload", b64)])])]
        else []).
Proof.
  intros Ht Ha Hb. unfold_js. rewrite Ht. cbn. rewrite Ha, Hb.
  destruct (truthy b64) eqn:Hp; [ | reflexivity ].
  assert (Hg : get audio_event "audio_base_64" = Normal b64).
  { destruct audio_event; cbn in Hb |- *; try exact Hb;
      injection Hb as <-; discriminate Hp. }
  rewrite Hg. reflexivity.
Qed.

Lemma interruption_delivery (s : session) (message : value) :
  get message "type" = Normal (Str "interruption") ->
  deliver (ElevenLabsMessage (Parsed message)) s =
    (s, [Send connection (Obj [("event", Str "clear"); ("streamSid", streamSid s)])]).
Proof. intros Ht. unfold_js. rewrite Ht. reflexivity. Qed.

(** A "ping" message: one pong to the AI socket when
    [ping_event?.event_id] is truthy, nothing otherwise. *)
Lemma ping_delivery (s : session) (ping ping_event id : value) :
  get ping "type" = Normal (Str "ping") ->
  get ping "ping_event" = Normal ping_event ->
  get_opt ping_event "event_id" = Normal id ->
  deliver (ElevenLabsMessage (Parsed ping)) s =
    (s, if truthy id
        then [Send elevenLabsWs (Obj [("type", Str "pong"); ("event_id", id)])]
        else []).
Proof.
  intros Ht Hp Hi. unfold_js. rewrite Ht. cbn. rewrite Hp, Hi.
  destruct (truthy id) eqn:Hid; [ | reflexivity ].
  assert (Hg : get ping_event "event_id" = Normal id).
  { destruct ping_event; cbn in Hi |- *; try exact Hi;
      injection Hi as <-; discriminate Hid. }
  rewrite Hg. reflexivity.
Qed.

(* ================================================================== *)
(** ** AI -> carrier *)

(** C1.  An AI "audio" message that carries a payload (its
    [audio_event.audio_base_64] passes the handler's presence test) makes the
    relay send exactly one message to the carrier socket and do nothing else:
    [{event: "media", streamSid, media: {payload}}], where [payload] is that
    [audio_base_64] value and [streamSid] is the identifier recorded from the
    most recent carrier start frame, whatever happened before that frame and
    whatever other events arrived since. *)
Theorem audio_is_forwarded_under_the_latest_streamSid
    (s0 : session) (start sid audio payload : value) (later : list event) :
  path ["event"] start = Normal (Str "start") ->
  path ["start"; "streamSid"] start = Normal sid ->
  existsb is_start later = false ->
  path ["type"] audio = Normal (Str "audio") ->
  path ["audio_event"; "audio_base_64"] audio = Normal payload ->
  truthy payload = true ->
  let s := state_after (TwilioMessage (Parsed start) :: later) s0 in
  deliver (ElevenLabsMessage (Parsed audio)) s =
    (s, [Send connection
           (Obj [("event", Str "media"); ("streamSid", sid);
                 ("media", Obj [("payload", payload)])])]).
Proof.
  intros Hev Hsid Hlater Htype Hpay Htruthy s.
  assert (Hs : streamSid s = sid).
  { subst s. rewrite state_after_cons, run_keeps_streamSid by exact Hlater.
    apply start_records; assumption. }
  apply path1_inv in Htype. apply path2_inv in Hpay as (ae & Hae & Hb64).
  rewrite (audio_delivery s audio ae payload Htype Hae (get_opt_get _ _ _ Hb64)).
  rewrite Htruthy, Hs. reflexivity.
Qed.

Lemma audio_is_forwarded_witness :
  deliver (ElevenLabsMessage (Parsed (audio_message (Str "UklGRg=="))))
    (state_after [TwilioMessage (Parsed (start_frame "MZ2"));
                  TwilioMessage (Parsed (media_frame "AAAA"));
                  ElevenLabsOpen] in_call)
  = (state_after [TwilioMessage (Parsed (start_frame "MZ2"));
                  TwilioMessage (Parsed (media_frame "AAAA"));
                  ElevenLabsOpen] in_call,
     [Send connection
        (Obj [("event", Str "media"); ("streamSid", Str "MZ2");
              ("media", Obj [("payload", Str "UklGRg==")])])]).
Proof.
  exact (audio_is_forwarded_under_the_latest_streamSid
           in_call (start_frame "MZ2") (Str "MZ2")
           (audio_message (Str "UklGRg==")) (Str "UklGRg==")
           [TwilioMessage (Parsed (media_frame "AAAA")); ElevenLabsOpen]
           eq_refl eq_refl eq_refl eq_refl eq_refl eq_refl).
Defined.

(** C7.  An AI "audio" message without a payload sends nothing to the carrier
    socket; the relay does nothing at all.  Without a payload: the message
    has no [audio_event], or its [audio_event] has no [audio_base_64], or
    that member is empty (any falsy value). *)
Theorem audio_without_payload_is_ignored
    (s : session) (audio audio_event b64 : value) :
  path ["type"] audio = Normal (Str "audio") ->
  get audio "audio_event" = Normal audio_event ->
  get_opt audio_event "audio_base_64" = Normal b64 ->
  truthy b64 = false ->
  deliver (ElevenLabsMessage (Parsed audio)) s = (s, []).
Proof.
  intros Htype Hae Hb64 Hfalsy. apply path1_inv in Htype.
  rewrite (audio_delivery s audio audio_event b64 Htype Hae Hb64), Hfalsy.
  reflexivity.
Qed.

Lemma audio_without_payload_witness :
  deliver (ElevenLabsMessage (Parsed audio_message_without_payload)) in_call = (in_call, [])
  /\ deliver (ElevenLabsMessage (Parsed (Obj [("type", Str "audio")]))) in_call = (in_call, []).
Proof.
  split.
  - exact (audio_without_payload_is_ignored in_call audio_message_without_payload
             (Obj [("event_id", Num 7%float)]) Undefined eq_refl eq_refl eq_refl eq_refl).
  - exact (audio_without_payload_is_ignored in_call (Obj [("type", Str "audio")])
             Undefined Undefined eq_refl eq_refl eq_refl eq_refl).
Defined.

(** C10.  The sends to the carrier are not guarded on [streamSid] having been
    set.  As long as no carrier start frame has arrived, an AI "interruption"
    still sends [{event: "clear", streamSid: null}] and an AI "audio" message
    with a payload still sends [{event: "media", streamSid: null, media}]. *)
Theorem sends_before_start_carry_a_null_streamSid
    (before : list event) (interruption audio payload : value) :
  existsb is_start before = false ->
  path ["type"] interruption = Normal (Str "interruption") ->
  path ["type"] audio = Normal (Str "audio") ->
  path ["audio_event"; "audio_base_64"] audio = Normal payload ->
  truthy payload = true ->
  let s := state_after before initial in
  deliver (ElevenLabsMessage (Parsed interruption)) s =
    (s, [Send connection (Obj [("event", Str "clear"); ("streamSid", Null)])])
  /\ deliver (ElevenLabsMessage (Parsed audio)) s =
    (s, [Send connection
           (Obj [("event", Str "media"); ("streamSid", Null);
                 ("media", Obj [("payload", payload)])])]).
Proof.
  intros Hbefore Hint Htype Hpay Htruthy s.
  assert (Hs : streamSid s = Null).
  { subst s. rewrite run_keeps_streamSid by exact Hbefore. reflexivity. }
  apply path1_inv in Hint, Htype. apply path2_inv in Hpay as (ae & Hae & Hb64).
  split.
  - rewrite (interruption_delivery s interruption Hint), Hs. reflexivity.
  - rewrite (audio_delivery s audio ae payload Htype Hae (get_opt_get _ _ _ Hb64)).
    rewrite Htruthy, Hs. reflexivity.
Qed.

Lemma sends_before_start_witness :
  let s := state_after [ElevenLabsOpen; TwilioMessage (Parsed (Obj [("event", Str "connected")]))]
             initial in
  deliver (ElevenLabsMessage (Parsed interruption_message)) s =
    (s, [Send connection (Obj [("event", Str "clear"); ("streamSid", Null)])])
  /\ deliver (ElevenLabsMessage (Parsed (audio_message (Str "UklGRg==")))) s =
    (s, [Send connection
           (Obj [("event", Str "media"); ("streamSid", Null);
                 ("media", Obj [("payload", Str "UklGRg==")])])]).
Proof.
  exact (sends_before_start_carry_a_null_streamSid
           [ElevenLabsOpen; TwilioMessage (Parsed (Obj [("event", Str "connected")]))]
           interruption_message (audio_message (Str "UklGRg==")) (Str "UklGRg==")
           eq_refl eq_refl eq_refl eq_refl eq_refl).
Defined.

(** C2, as stated, fails on the code: a ping that carries the event
    identifier 0 gets no pong.  The handler tests [ping_event?.event_id] for
    truthiness, and 0 is falsy. *)
Lemma ping_with_event_id_zero_gets_no_pong :
  path ["type"] (ping_message (Num 0%float)) = Normal (Str "ping")
  /\ path ["ping_event"; "event_id"] (ping_message (Num 0%float)) = Normal (Num 0%float)
  /\ deliver (ElevenLabsMessage (Parsed (ping_message (Num 0%float)))) in_call = (in_call, []).
Proof. repeat split. Qed.

(** C2, amended.  An AI "ping" message whose [ping_event.event_id] is truthy
    (a non-zero number, a non-empty string, ...) makes the relay send exactly
    one message, [{type: "pong", event_id}] with the identical [event_id], to
    the AI socket, and nothing to the carrier socket; a ping whose event_id
    is falsy (0, the empty string, false, null, or no such member) gets no
    answer.  The session is left as it was. *)
Theorem ping_is_answered_when_its_event_id_is_truthy
    (s : session) (ping event_id : value) :
  path ["type"] ping = Normal (Str "ping") ->
  path ["ping_event"; "event_id"] ping = Normal event_id ->
  deliver (ElevenLabsMessage (Parsed ping)) s =
    (s, if truthy event_id
        then [Send elevenLabsWs (Obj [("type", Str "pong"); ("event_id", event_id)])]
        else []).
Proof.
  intros Htype Hid. apply path1_inv in Htype. apply path2_inv in Hid as (pe & Hpe & Hid).
  exact (ping_delivery s ping pe event_id Htype Hpe (get_opt_get _ _ _ Hid)).
Qed.

Lemma ping_is_answered_witness :
  deliver (ElevenLabsMessage (Parsed (ping_message (Num 12345%float)))) in_call =
    (in_call, [Send elevenLabsWs (Obj [("type", Str "pong"); ("event_id", Num 12345%float)])]).
Proof.
  exact (ping_is_answered_when_its_event_id_is_truthy
           in_call (ping_message (Num 12345%float)) (Num 12345%float) eq_refl eq_refl).
Defined.

(* ================================================================== *)
(** ** Malformed frames *)

(** C6.  A frame that is not JSON, on either socket, is reported with one
    console.error and dropped: nothing is sent or closed, [streamSid] and both
    sockets stay as they were, and the session goes on exactly as if the frame
    had never arrived. *)
Theorem malformed_frames_are_reported_and_dropped
    (s : session) (text : string) (rest : list event) :
  deliver (TwilioMessage (Unparseable text)) s =
    (s, [Console console_error_level
           [Text "[Twilio] Error processing message:"; Err SyntaxError]])
  /\ deliver (ElevenLabsMessage (Unparseable text)) s =
    (s, [Console console_error_level
           [Text "[II] Error parsing message:"; Err SyntaxError]])
  /\ state_after (TwilioMessage (Unparseable text) :: rest) s = state_after rest s
  /\ state_after (ElevenLabsMessage (Unparseable text) :: rest) s = state_after rest s.
Proof.
  repeat split; rewrite ?state_after_cons; reflexivity.
Qed.

(* ================================================================== *)
(** ** Carrier -> AI *)

(** C5.  A carrier "media" frame is forwarded if and only if the AI socket is
    open at that moment: then its [media.payload] goes to the AI socket as
    [{user_audio_chunk: payload}]; otherwise the chunk is dropped without a
    send, a log line or a change of state. *)
Theorem media_is_forwarded_iff_the_ai_socket_is_open
    (s : session) (media payload : value) :
  path ["event"] media = Normal (Str "media") ->
  path ["media"; "payload"] media = Normal payload ->
  deliver (TwilioMessage (Parsed media)) s =
    (s, if is_OPEN (elevenLabsWs_readyState s)
        then [Send elevenLabsWs (Obj [("user_audio_chunk", payload)])]
        else [])
  /\ (In (Send elevenLabsWs (Obj [("user_audio_chunk", payload)]))
         (snd (deliver (TwilioMessage (Parsed media)) s))
      <-> elevenLabsWs_readyState s = OPEN).
Proof.
  intros Hev Hpay. apply path1_inv in Hev. apply path2_inv in Hpay as (m & Hm & Hp).
  assert (E : deliver (TwilioMessage (Parsed media)) s =
              (s, if is_OPEN (elevenLabsWs_readyState s)
                  then [Send elevenLabsWs (Obj [("user_audio_chunk", payload)])]
                  else [])).
  { unfold_js. rewrite Hev. cbn.
    destruct (elevenLabsWs_readyState s); cbn; rewrite ?Hm, ?Hp; reflexivity. }
  split; [ exact E | ]. rewrite E. cbn [snd].
  destruct (elevenLabsWs_readyState s); cbn; split;
    try discriminate; try tauto; intros _; left; reflexivity.
Qed.

Lemma media_is_forwarded_witness :
  deliver (TwilioMessage (Parsed (media_frame "AAAA"))) in_call =
    (in_call, [Send elevenLabsWs (Obj [("user_audio_chunk", Str "AAAA")])])
  /\ deliver (TwilioMessage (Parsed (media_frame "AAAA"))) initial = (initial, []).
Proof.
  split.
  - exact (proj1 (media_is_forwarded_iff_the_ai_socket_is_open
                    in_call (media_frame "AAAA") (Str "AAAA") eq_refl eq_refl)).
  - exact (proj1 (media_is_forwarded_iff_the_ai_socket_is_open
                    initial (media_frame "AAAA") (Str "AAAA") eq_refl eq_refl)).
Defined.

(** Once the AI socket is closing or closed it stays so, and from then on no
    event makes the relay forward a caller-audio chunk. *)
Lemma deliver_after_teardown (e : event) (s : session) :
  is_closing_or_closed (elevenLabsWs_readyState s) = true ->
  is_closing_or_closed (elevenLabsWs_readyState (fst (deliver e s))) = true
  /\ existsb is_forwarded_media (snd (deliver e s)) = false.
Proof.
  intros H.
  destruct (elevenLabsWs_readyState s) eqn:Hr; try discriminate H;
    destruct e as [ | [text | message] | err | | [text | data] | err | ];
    unfold_js; branches; cbn in *; rewrite ?Hr in *; cbn in *;
    try discriminate; split; reflexivity.
Qed.

Lemma run_after_teardown (es : list event) :
  forall s, is_closing_or_closed (elevenLabsWs_readyState s) = true ->
    is_closing_or_closed (elevenLabsWs_readyState (state_after es s)) = true
    /\ existsb is_forwarded_media (trace_of es s) = false.
Proof.
  induction es as [ | e es IH]; intros s H; [ split; [ exact H | reflexivity ] | ].
  destruct (deliver_after_teardown e s H) as [H1 T1].
  destruct (IH _ H1) as [H2 T2].
  rewrite state_after_cons, trace_of_cons, existsb_app, T1, T2.
  split; [ exact H2 | reflexivity ].
Qed.

(** What a carrier "stop" frame does. *)
Lemma stop_delivery (s : session) (stop : value) :
  get stop "event" = Normal (Str "stop") ->
  deliver (TwilioMessage (Parsed stop)) s =
    (if is_OPEN (elevenLabsWs_readyState s)
     then set_readyState elevenLabsWs CLOSING s else s,
     if is_OPEN (elevenLabsWs_readyState s) then [Close elevenLabsWs] else []).
Proof.
  intros Hev. unfold_js. rewrite Hev. cbn.
  destruct (elevenLabsWs_readyState s) eqn:Hr; cbn; rewrite ?Hr; reflexivity.
Qed.

(** C3, as stated, fails on the code: a stop frame that meets an AI socket
    which is still connecting closes nothing, the socket opens afterwards, and
    a media frame that follows the stop is forwarded. *)
Lemma media_is_forwarded_after_a_stop_that_met_a_connecting_socket :
  path ["event"] stop_frame = Normal (Str "stop")
  /\ path ["event"] (media_frame "AAAA") = Normal (Str "media")
  /\ run [TwilioMessage (Parsed stop_frame);
          ElevenLabsOpen;
          TwilioMessage (Parsed (media_frame "AAAA"))] initial
     = ({| streamSid := Null;
           elevenLabsWs_readyState := OPEN;
           connection_readyState := OPEN |},
        [Console console_log_level [Text "[II] Connected to Conversational AI."];
         Send elevenLabsWs (Obj [("user_audio_chunk", Str "AAAA")])]).
Proof. repeat split. Qed.

(** C3, amended.  When a carrier "stop" frame is received, the AI socket is
    closed if it was open at that moment (and only then).  If the AI socket
    was not still connecting at that moment (it was open, closing or closed),
    then whatever events follow, no carrier media is forwarded to the AI
    socket after the stop: the trace holds no forwarded chunk, and every later
    "media" frame is dropped without any effect. *)
Theorem stop_closes_an_open_ai_socket_and_ends_forwarding
    (s : session) (stop : value) :
  path ["event"] stop = Normal (Str "stop") ->
  deliver (TwilioMessage (Parsed stop)) s =
    (if is_OPEN (elevenLabsWs_readyState s)
     then set_readyState elevenLabsWs CLOSING s else s,
     if is_OPEN (elevenLabsWs_readyState s) then [Close elevenLabsWs] else [])
  /\ (elevenLabsWs_readyState s <> CONNECTING ->
      forall later : list event,
        let s' := state_after (TwilioMessage (Parsed stop) :: later) s in
        existsb is_forwarded_media
          (trace_of (TwilioMessage (Parsed stop) :: later) s) = false
        /\ forall media : value,
             path ["event"] media = Normal (Str "media") ->
             deliver (TwilioMessage (Parsed media)) s' = (s', [])).
Proof.
  intros Hev. apply path1_inv in Hev. split; [ exact (stop_delivery s stop Hev) | ].
  intros Hconn later s'.
  assert (Hshut : is_closing_or_closed
                    (elevenLabsWs_readyState
                       (fst (deliver (TwilioMessage (Parsed stop)) s))) = true).
  { rewrite (stop_delivery s stop Hev).
    destruct (elevenLabsWs_readyState s) eqn:Hr; cbn; rewrite ?Hr;
      try reflexivity; contradiction. }
  destruct (run_after_teardown later _ Hshut) as [Hs' Hnone].
  split.
  - rewrite trace_of_cons, existsb_app, Hnone, (stop_delivery s stop Hev).
    destruct (is_OPEN (elevenLabsWs_readyState s)); reflexivity.
  - intros media Hm. apply path1_inv in Hm.
    subst s'. rewrite state_after_cons.
    set (s' := state_after later _) in *.
    unfold_js. rewrite Hm. cbn.
    destruct (elevenLabsWs_readyState s'); try discriminate Hs'; reflexivity.
Qed.

Lemma stop_ends_forwarding_witness :
  deliver (TwilioMessage (Parsed stop_frame)) in_call =
    (set_readyState elevenLabsWs CLOSING in_call, [Close elevenLabsWs])
  /\ existsb is_forwarded_media
       (trace_of [TwilioMessage (Parsed stop_frame);
                  TwilioMessage (Parsed (media_frame "AAAA"));
                  ElevenLabsMessage (Parsed (ping_message (Num 3%float)));
                  ElevenLabsClose;
                  TwilioMessage (Parsed (media_frame "BBBB"))] in_call) = false.
Proof.
  destruct (stop_closes_an_open_ai_socket_and_ends_forwarding in_call stop_frame eq_refl)
    as [Hclose Hafter].
  split.
  - exact Hclose.
  - refine (proj1 (Hafter _ [TwilioMessage (Parsed (media_frame "AAAA"));
                             ElevenLabsMessage (Parsed (ping_message (Num 3%float)));
                             ElevenLabsClose;
                             TwilioMessage (Parsed (media_frame "BBBB"))])).
    discriminate.
Defined.

(* ================================================================== *)
(** ** Lifecycle coupling *)

(** No listener ever calls [connection.close()]. *)
Lemma deliver_never_closes_the_carrier (e : event) (s : session) :
  ~ In (Close connection) (snd (deliver e s)).
Proof.
  destruct e as [ | [text | message] | err | | [text | data] | err | ];
    unfold_js; branches; cbn; intuition discriminate.
Qed.

Lemma run_never_closes_the_carrier (es : list event) :
  forall s, ~ In (Close connection) (trace_of es s).
Proof.
  induction es as [ | e es IH]; intros s; [ intros [] | ].
  rewrite trace_of_cons. intros H. apply in_app_or in H as [H | H].
  - exact (deliver_never_closes_the_carrier e s H).
  - exact (IH _ H).
Qed.

(** C4.  The coupling of the two sockets runs one way.  A "close" or an
    "error" of the carrier socket calls [elevenLabsWs.close()] exactly when
    the AI socket is open at that moment, which leaves it closing.  A "close"
    or an "error" of the AI socket is logged and nothing more: the carrier
    socket is not closed and keeps its readyState, so a carrier socket that is
    open stays open after the AI socket has errored and closed; indeed no
    history of events makes the relay close the carrier socket. *)
Theorem lifecycle_coupling_runs_one_way (s : session) (err : exn) :
  (In (Close elevenLabsWs) (snd (deliver TwilioClose s))
   <-> elevenLabsWs_readyState s = OPEN)
  /\ (In (Close elevenLabsWs) (snd (deliver (TwilioError err) s))
      <-> elevenLabsWs_readyState s = OPEN)
  /\ (elevenLabsWs_readyState s = OPEN ->
      deliver TwilioClose s =
        (set_readyState elevenLabsWs CLOSING (set_readyState connection CLOSED s),
         [Close elevenLabsWs;
          Console console_log_level [Text "[Twilio] Client disconnected"]])
      /\ deliver (TwilioError err) s =
        (set_readyState elevenLabsWs CLOSING
           (set_readyState connection (errored (connection_readyState s)) s),
         [Console console_error_level [Text "[Twilio] WebSocket error:"; Err err];
          Close elevenLabsWs]))
  /\ (elevenLabsWs_readyState s <> OPEN ->
      deliver TwilioClose s =
        (set_readyState connection CLOSED s,
         [Console console_log_level [Text "[Twilio] Client disconnected"]])
      /\ deliver (TwilioError err) s =
        (set_readyState connection (errored (connection_readyState s)) s,
         [Console console_error_level [Text "[Twilio] WebSocket error:"; Err err]]))
  /\ deliver ElevenLabsClose s =
    (set_readyState elevenLabsWs CLOSED s,
     [Console console_log_level [Text "[II] Disconnected."]])
  /\ deliver (ElevenLabsError err) s =
    (set_readyState elevenLabsWs (errored (elevenLabsWs_readyState s)) s,
     [Console console_error_level [Text "[II] WebSocket error:"; Err err]])
  /\ connection_readyState (fst (deliver ElevenLabsClose s)) = connection_readyState s
  /\ connection_readyState (fst (deliver (ElevenLabsError err) s)) = connection_readyState s
  /\ connection_readyState (state_after [ElevenLabsError err; ElevenLabsClose] s)
     = connection_readyState s
  /\ forall es : list event, ~ In (Close connection) (trace_of es s).
Proof.
  assert (Hopen : elevenLabsWs_readyState s = OPEN ->
            deliver TwilioClose s =
              (set_readyState elevenLabsWs CLOSING (set_readyState connection CLOSED s),
               [Close elevenLabsWs;
                Console console_log_level [Text "[Twilio] Client disconnected"]])
            /\ deliver (TwilioError err) s =
              (set_readyState elevenLabsWs CLOSING
                 (set_readyState connection (errored (connection_readyState s)) s),
               [Console console_error_level [Text "[Twilio] WebSocket error:"; Err err];
                Close elevenLabsWs])).
  { intros Hr. split; unfold_js; cbn; rewrite Hr; reflexivity. }
  assert (Hshut : elevenLabsWs_readyState s <> OPEN ->
            deliver TwilioClose s =
              (set_readyState connection CLOSED s,
               [Console console_log_level [Text "[Twilio] Client disconnected"]])
            /\ deliver (TwilioError err) s =
              (set_readyState connection (errored (connection_readyState s)) s,
               [Console console_error_level [Text "[Twilio] WebSocket error:"; Err err]])).
  { intros Hr. split; unfold_js; cbn;
      destruct (elevenLabsWs_readyState s) eqn:E; try contradiction; reflexivity. }
  split; [ | split; [ | split; [ exact Hopen | split; [ exact Hshut | ] ] ] ].
  - destruct (elevenLabsWs_readyState s) eqn:E.
    2:{ destruct (Hopen eq_refl) as [-> _]. cbn. tauto. }
    all: destruct Hshut as [-> _]; [ congruence | ]; cbn; intuition discriminate.
  - destruct (elevenLabsWs_readyState s) eqn:E.
    2:{ destruct (Hopen eq_refl) as [_ ->]. cbn. tauto. }
    all: destruct Hshut as [_ ->]; [ congruence | ]; cbn; intuition discriminate.
  - repeat split. intros es. apply run_never_closes_the_carrier.
Qed.

Lemma lifecycle_coupling_witness :
  deliver TwilioClose in_call =
    (set_readyState elevenLabsWs CLOSING (set_readyState connection CLOSED in_call),
     [Close elevenLabsWs;
      Console console_log_level [Text "[Twilio] Client disconnected"]])
  /\ connection_readyState
       (state_after [ElevenLabsError (HostError "ECONNRESET"); ElevenLabsClose] in_call)
     = OPEN.
Proof.
  destruct (lifecycle_coupling_runs_one_way in_call (HostError "ECONNRESET"))
    as (_ & _ & Hopen & _ & _ & _ & _ & _ & Hstay & _).
  split; [ exact (proj1 (Hopen eq_refl)) | exact Hstay ].
Defined.

(* ================================================================== *)
(** ** HTTP routes *)

Lemma strip_scheme_https (host : string) :
  strip_scheme ("https://" ++ host)%string = host.
Proof. destruct host; reflexivity. Qed.

Lemma strip_scheme_http (host : string) :
  strip_scheme ("http://" ++ host)%string = host.
Proof. destruct host; reflexivity. Qed.

(** A method on the framework's list is accepted by a route registered
    with [all]. *)
Lemma supported_method_is_accepted (supportedMethods : list string) (m : string) :
  In m supportedMethods <-> accepts supportedMethods all_ m = true.
Proof.
  cbn [accepts]. rewrite existsb_exists. split.
  - intros H. exists m. split; [ exact H | apply String.eqb_refl ].
  - intros (x & Hx & E). apply String.eqb_eq in E. subst x. exact Hx.
Qed.

(** How requests to /incoming-call-eleven are routed. *)
Lemma incoming_call_eleven_route (supportedMethods : list string) (m : string) :
  find_route supportedMethods routes m "/incoming-call-eleven"
  = if accepts supportedMethods all_ m then Some IncomingCallEleven else None.
Proof.
  unfold routes. cbn [find_route].
  change ("/" =? "/incoming-call-eleven")%string with false.
  change ("/incoming-call-eleven" =? "/incoming-call-eleven")%string with true.
  change ("/media-stream" =? "/incoming-call-eleven")%string with false.
  change ("/make-outbound-call" =? "/incoming-call-eleven")%string with false.
  cbn [andb]. destruct (accepts supportedMethods all_ m); reflexivity.
Qed.

(** C9, as stated, fails on the code.  The route is registered with
    [fastify.all], which covers the methods the framework supports and no
    other: on a server with the standard methods a PROPFIND request to
    /incoming-call-eleven reaches no handler of the program and gets no TwiML,
    while a POST does. *)
Lemma incoming_call_eleven_is_not_served_on_propfind :
  method propfind = "PROPFIND"
  /\ existsb (String.eqb (method propfind)) standard_methods = false
  /\ serve production provider_ok standard_methods "/incoming-call-eleven" propfind = None
  /\ serve production provider_ok standard_methods "/incoming-call-eleven" (post Undefined)
     = Some (Normal tt, [Reply 200 (Some "text/xml") (Str (twimlResponse production))]).
Proof. repeat split. Qed.

(** C9, amended.  Every request to /incoming-call-eleven whose method is one
    the framework supports, whatever that method and whatever the body, gets
    the same answer and causes nothing else: one reply of type text/xml whose
    document contains the element [<Stream url="wss://HOST/media-stream"],
    HOST being the configured base URL without its http(s):// prefix.  A
    request with any other method reaches no handler of the program. *)
Theorem incoming_call_eleven_answers_the_same_twiml_on_supported_methods
    (e : env) (calls_create : call_options -> completion value)
    (supportedMethods : list string) (r : request) :
  In (method r) supportedMethods ->
  serve e calls_create supportedMethods "/incoming-call-eleven" r =
    Some (Normal tt, [Reply 200 (Some "text/xml") (Str (twimlResponse e))])
  /\ (forall r' : request,
        In (method r') supportedMethods ->
        serve e calls_create supportedMethods "/incoming-call-eleven" r'
        = serve e calls_create supportedMethods "/incoming-call-eleven" r)
  /\ (forall r' : request,
        ~ In (method r') supportedMethods ->
        serve e calls_create supportedMethods "/incoming-call-eleven" r' = None)
  /\ (exists before after : string,
        twimlResponse e
        = (before ++ stream_tag (strip_scheme (BASE_URL e)) ++ after)%string)
  /\ (forall host : string,
        BASE_URL e = ("https://" ++ host)%string \/ BASE_URL e = ("http://" ++ host)%string ->
        stream_tag (strip_scheme (BASE_URL e))
        = ("<Stream url=" ++ dq ++ "wss://" ++ host ++ "/media-stream" ++ dq)%string).
Proof.
  intros Hm.
  assert (Hserved : forall r' : request,
            In (method r') supportedMethods ->
            serve e calls_create supportedMethods "/incoming-call-eleven" r' =
              Some (Normal tt, [Reply 200 (Some "text/xml") (Str (twimlResponse e))])).
  { intros r' H. apply supported_method_is_accepted in H.
    unfold serve. rewrite incoming_call_eleven_route, H. reflexivity. }
  split; [ exact (Hserved r Hm) | ]. split; [ | split; [ | split ] ].
  - intros r' H. rewrite (Hserved r' H), (Hserved r Hm). reflexivity.
  - intros r' H. unfold serve. rewrite incoming_call_eleven_route.
    destruct (accepts supportedMethods all_ (method r')) eqn:E; [ | reflexivity ].
    apply supported_method_is_accepted in E. contradiction.
  - exists ("<?xml version=" ++ dq ++ "1.0" ++ dq ++ " encoding=" ++ dq ++ "UTF-8" ++ dq
            ++ "?>" ++ nl ++ "    <Response>" ++ nl ++ "      <Connect>" ++ nl
            ++ "        ")%string.
    exists (" />" ++ nl ++ "      </Connect>" ++ nl ++ "    </Response>")%string.
    reflexivity.
  - intros host [H | H]; rewrite H; [ rewrite strip_scheme_https | rewrite strip_scheme_http ];
      reflexivity.
Qed.

Lemma incoming_call_eleven_witness :
  serve production provider_ok standard_methods "/incoming-call-eleven"
    {| method := "GET"; body := Undefined |}
  = Some (Normal tt, [Reply 200 (Some "text/xml") (Str (twimlResponse production))])
  /\ serve production provider_ok standard_methods "/incoming-call-eleven"
       (post (Obj [("CallSid", Str "CA123")]))
     = serve production provider_ok standard_methods "/incoming-call-eleven"
         {| method := "GET"; body := Undefined |}.
Proof.
  destruct (incoming_call_eleven_answers_the_same_twiml_on_supported_methods
              production provider_ok standard_methods
              {| method := "GET"; body := Undefined |}
              (or_introl eq_refl))
    as (Hget & Hsame & _).
  split; [ exact Hget | ].
  apply Hsame. cbn. tauto.
Defined.

(** C8, as stated, fails on the code.  The 400 answer is not tied to the
    absence of the "to" field: a request whose "to" is present but empty gets
    400 as well (no provider call, although the provider would have created
    the call); and a POST without any body, where "to" is absent, gets no 400:
    the handler throws on reading the field and sends no reply of its own. *)
Lemma make_outbound_call_400_is_not_exactly_absence :
  get (body (post (Obj [("to", Str "")]))) "to" = Normal (Str "")
  /\ serve production provider_ok standard_methods "/make-outbound-call" (post (Obj [("to", Str "")]))
     = Some (Normal tt,
             [Reply 400 None (Obj [("error", Str "Destination phone number is required")])])
  /\ serve production provider_ok standard_methods "/make-outbound-call" (post Undefined)
     = Some (Throw TypeError, []).
Proof. repeat split. Qed.

(** C8, amended.  For a POST /make-outbound-call that has a body:
    - when its "to" field is falsy (absent, null, the empty string, 0, false)
      the answer is 400 [{error: "Destination phone number is required"}] and
      no provider call is attempted;
    - when "to" is truthy, exactly one call-creation request is made (to that
      number, from the configured number, pointing at
      BASE_URL/incoming-call-eleven), and the answer is never 400:
      if the request fails, 500 [{error: "Failed to initiate call"}], with no
      second attempt; if it yields a call with identifier [sid],
      200 [{message: "Call initiated", callSid: sid}]. *)
Theorem make_outbound_call_answers
    (e : env) (calls_create : call_options -> completion value)
    (supportedMethods : list string)
    (r : request) (number : value) :
  method r = "POST" ->
  get (body r) "to" = Normal number ->
  let o := {| url := (BASE_URL e ++ "/incoming-call-eleven")%string;
              to := number;
              from := env_value (TWILIO_PHONE_NUMBER e) |} in
  let outcome := serve e calls_create supportedMethods "/make-outbound-call" r in
  (truthy number = false ->
   outcome = Some (Normal tt,
                   [Reply 400 None
                      (Obj [("error", Str "Destination phone number is required")])]))
  /\ (truthy number = true ->
      exists (l : level) (args : list logged) (status : Z) (payload : value),
        (status = 200%Z \/ status = 500%Z)
        /\ outcome = Some (Normal tt, [CallsCreate o; Console l args; Reply status None payload]))
  /\ (truthy number = true ->
      forall err : exn,
        calls_create o = Throw err ->
        outcome = Some (Normal tt,
                        [CallsCreate o;
                         Console console_error_level
                           [Text "[Twilio] Error initiating call:"; Err err];
                         Reply 500 None (Obj [("error", Str "Failed to initiate call")])]))
  /\ (truthy number = true ->
      forall call sid : value,
        calls_create o = Normal call ->
        get call "sid" = Normal sid ->
        outcome = Some (Normal tt,
                        [CallsCreate o;
                         Console console_log_level
                           [Text "[Twilio] Outbound call initiated: "; Val sid];
                         Reply 200 None
                           (Obj [("message", Str "Call initiated"); ("callSid", sid)])])).
Proof.
  intros Hm Hto o outcome.
  assert (E : outcome =
    let '(c, _, t) := make_outbound_call e calls_create r tt in Some (c, t)).
  { subst outcome. unfold serve. rewrite Hm. reflexivity. }
  rewrite E. clear E outcome.
  unfold make_outbound_call, twilioClient_calls_create, reply.
  cbv [try_catch bind ret eval emit console]. rewrite Hto. fold o.
  repeat split.
  - intros ->. reflexivity.
  - intros ->. cbn [negb].
    destruct (calls_create o) as [call | err]; cbn.
    + destruct (get call "sid") as [sid | err]; cbn; do 4 eexists;
        (split; [ | reflexivity ]); auto.
    + do 4 eexists; (split; [ | reflexivity ]); auto.
  - intros -> err ->. reflexivity.
  - intros -> call sid -> . cbn. intros ->. reflexivity.
Qed.

Lemma make_outbound_call_witness :
  serve production provider_ok standard_methods "/make-outbound-call" (post (Obj [("to", Str "+15551234567")]))
  = Some (Normal tt,
          [CallsCreate {| url := "https://relay.onrender.com/incoming-call-eleven";
                          to := Str "+15551234567";
                          from := Str "+15550000000" |};
           Console console_log_level
             [Text "[Twilio] Outbound call initiated: "; Val (Str "CA123")];
           Reply 200 None (Obj [("message", Str "Call initiated"); ("callSid", Str "CA123")])])
  /\ serve production provider_down standard_methods "/make-outbound-call" (post (Obj [("to", Str "+15551234567")]))
  = Some (Normal tt,
          [CallsCreate {| url := "https://relay.onrender.com/incoming-call-eleven";
                          to := Str "+15551234567";
                          from := Str "+15550000000" |};
           Console console_error_level
             [Text "[Twilio] Error initiating call:"; Err (HostError "RestException")];
           Reply 500 None (Obj [("error", Str "Failed to initiate call")])])
  /\ serve production provider_ok standard_methods "/make-outbound-call" (post (Obj []))
  = Some (Normal tt,
          [Reply 400 None (Obj [("error", Str "Destination phone number is required")])]).
Proof.
  split; [ | split ].
  - exact (proj2 (proj2 (proj2
             (make_outbound_call_answers production provider_ok standard_methods
                (post (Obj [("to", Str "+15551234567")])) (Str "+15551234567")
                eq_refl eq_refl)))
             eq_refl _ (Str "CA123") eq_refl eq_refl).
  - exact (proj1 (proj2 (proj2
             (make_outbound_call_answers production provider_down standard_methods
                (post (Obj [("to", Str "+15551234567")])) (Str "+15551234567")
                eq_refl eq_refl)))
             eq_refl (HostError "RestException") eq_refl).
  - exact (proj1
             (make_outbound_call_answers production provider_ok standard_methods
                (post (Obj [])) Undefined eq_refl eq_refl)
             eq_refl).
Defined.

(* ================================================================== *)
(** ** More on the relay *)

(** X1.  An AI "interruption" makes the relay send exactly one message to the
    carrier, [{event: "clear", streamSid}], tagged with the identifier of the
    most recent carrier start frame, and nothing else; the message needs no
    member besides its [type]. *)
Theorem interruption_clears_under_the_latest_streamSid
    (s0 : session) (start sid interruption : value) (later : list event) :
  path ["event"] start = Normal (Str "start") ->
  path ["start"; "streamSid"] start = Normal sid ->
  existsb is_start later = false ->
  path ["type"] interruption = Normal (Str "interruption") ->
  let s := state_after (TwilioMessage (Parsed start) :: later) s0 in
  deliver (ElevenLabsMessage (Parsed interruption)) s =
    (s, [Send connection (Obj [("event", Str "clear"); ("streamSid", sid)])]).
Proof.
  intros Hev Hsid Hlater Htype s.
  assert (Hs : streamSid s = sid).
  { subst s. rewrite state_after_cons, run_keeps_streamSid by exact Hlater.
    apply start_records; assumption. }
  apply path1_inv in Htype.
  rewrite (interruption_delivery s interruption Htype), Hs. reflexivity.
Qed.

Lemma interruption_clears_witness :
  let s := state_after [TwilioMessage (Parsed (start_frame "MZ7"));
                        TwilioMessage (Parsed (media_frame "AAAA"))] in_call in
  deliver (ElevenLabsMessage (Parsed (Obj [("type", Str "interruption")]))) s =
    (s, [Send connection (Obj [("event", Str "clear"); ("streamSid", Str "MZ7")])]).
Proof.
  exact (interruption_clears_under_the_latest_streamSid
           in_call (start_frame "MZ7") (Str "MZ7") (Obj [("type", Str "interruption")])
           [TwilioMessage (Parsed (media_frame "AAAA"))]
           eq_refl eq_refl eq_refl eq_refl).
Defined.

(** X2.  Whatever arrives on the AI socket -- any JSON value, or text that
    is not JSON -- the session is left exactly as it was ([streamSid] and both
    readyStates), and the relay answers with at most one call. *)
Theorem elevenLabs_messages_leave_the_session_unchanged (data : frame) (s : session) :
  fst (deliver (ElevenLabsMessage data) s) = s
  /\ length (snd (deliver (ElevenLabsMessage data) s)) <= 1.
Proof.
  destruct data as [text | message]; unfold_js; branches; cbn;
    split; try reflexivity; repeat constructor.
Qed.

(** A read that succeeded agrees with the optional read made before it. *)
Lemma get_after_get_opt (v a b : value) (k : string) :
  get_opt v k = Normal a -> get v k = Normal b -> a = b.
Proof.
  intros Ha Hb. rewrite (get_opt_get _ _ _ Hb) in Ha. injection Ha as <-. reflexivity.
Qed.

Lemma deliver_speaks_protocol (e : event) (s : session) :
  forallb speaks_protocol (snd (deliver e s)) = true.
Proof.
  destruct e as [ | [text | message] | err | | [text | data] | err | ];
    unfold_js; branches; cbn; try reflexivity;
    match goal with
    | Ho : get_opt ?v ?k = Normal ?a, Hg : get ?v ?k = Normal ?b, Ht : truthy ?a = true |- _ =>
        rewrite <- (get_after_get_opt v a b k Ho Hg), Ht; reflexivity
    end.
Qed.

(** X3.  Over any history, from any session, every message the relay sends
    has one of four shapes: to the carrier [{event: "media", streamSid,
    media: {payload}}] with a truthy payload or [{event: "clear", streamSid}];
    to the AI [{user_audio_chunk}] or [{type: "pong", event_id}] with a
    truthy event_id.  It never passes a frame on unchanged and never sends an
    empty payload or a pong without an identifier. *)
Theorem the_relay_speaks_only_its_four_messages (es : list event) (s : session) :
  forallb speaks_protocol (trace_of es s) = true.
Proof.
  revert s. induction es as [ | e es IH]; intros s; [ reflexivity | ].
  rewrite trace_of_cons, forallb_app, deliver_speaks_protocol, IH. reflexivity.
Qed.

(** X4.  Nothing is echoed and nothing crosses on a lifecycle event: an
    event of the carrier socket never makes the relay send on the carrier
    socket, and an "open", "close" or "error" of the AI socket makes it send
    on neither socket. *)
Theorem no_echo_and_no_send_on_lifecycle_events
    (s : session) (message : frame) (err : exn) :
  existsb (is_send_on connection) (snd (deliver (TwilioMessage message) s)) = false
  /\ existsb (is_send_on connection) (snd (deliver (TwilioError err) s)) = false
  /\ existsb (is_send_on elevenLabsWs) (snd (deliver (TwilioError err) s)) = false
  /\ existsb (is_send_on connection) (snd (deliver TwilioClose s)) = false
  /\ existsb (is_send_on elevenLabsWs) (snd (deliver TwilioClose s)) = false
  /\ snd (deliver ElevenLabsOpen s)
     = [Console console_log_level [Text "[II] Connected to Conversational AI."]]
  /\ existsb (is_send_on connection) (snd (deliver (ElevenLabsError err) s)) = false
  /\ existsb (is_send_on elevenLabsWs) (snd (deliver (ElevenLabsError err) s)) = false
  /\ existsb (is_send_on connection) (snd (deliver ElevenLabsClose s)) = false
  /\ existsb (is_send_on elevenLabsWs) (snd (deliver ElevenLabsClose s)) = false.
Proof.
  repeat split; try (unfold_js; branches; reflexivity).
  destruct message as [text | data]; unfold_js; branches; reflexivity.
Qed.

(** X5.  A carrier frame whose [event] is none of "start", "media", "stop"
    -- "connected", "mark", "dtmf", or a frame with no [event] member at all --
    is ignored: nothing is sent or closed and the session is unchanged.  It
    leaves one log line: "Unhandled event" with the event, or, when the event
    cannot be converted to a string for that line (an object with a member of
    its own called toString, or an array holding one), the TypeError of the
    conversion, reported by the catch block. *)
Theorem unknown_carrier_events_are_logged_and_ignored
    (s : session) (data event : value) :
  get data "event" = Normal event ->
  is_str event "start" = false ->
  is_str event "media" = false ->
  is_str event "stop" = false ->
  deliver (TwilioMessage (Parsed data)) s =
    (s, if cannot_convert_to_string event
        then [Console console_error_level
                [Text "[Twilio] Error processing message:"; Err TypeError]]
        else [Console console_log_level
                [Text "[Twilio] Unhandled event: "; Val event]]).
Proof.
  intros He H1 H2 H3. unfold_js. rewrite He, H1, H2, H3. unfold interpolate.
  destruct (cannot_convert_to_string event); reflexivity.
Qed.

Lemma unknown_carrier_events_witness :
  deliver (TwilioMessage (Parsed (Obj [("event", Str "mark"); ("streamSid", Str "MZ1")])))
    in_call
  = (in_call, [Console console_log_level
                 [Text "[Twilio] Unhandled event: "; Val (Str "mark")]])
  /\ deliver (TwilioMessage (Parsed (Obj [("streamSid", Str "MZ1")]))) in_call
  = (in_call, [Console console_log_level
                 [Text "[Twilio] Unhandled event: "; Val Undefined]])
  /\ deliver (TwilioMessage
                (Parsed (Obj [("event", Obj [("toString", Num 0%float)])]))) in_call
  = (in_call, [Console console_error_level
                 [Text "[Twilio] Error processing message:"; Err TypeError]]).
Proof.
  split; [ | split ].
  - exact (unknown_carrier_events_are_logged_and_ignored in_call
             (Obj [("event", Str "mark"); ("streamSid", Str "MZ1")]) (Str "mark")
             eq_refl eq_refl eq_refl eq_refl).
  - exact (unknown_carrier_events_are_logged_and_ignored in_call
             (Obj [("streamSid", Str "MZ1")]) Undefined
             eq_refl eq_refl eq_refl eq_refl).
  - exact (unknown_carrier_events_are_logged_and_ignored in_call
             (Obj [("event", Obj [("toString", Num 0%float)])])
             (Obj [("toString", Num 0%float)])
             eq_refl eq_refl eq_refl eq_refl).
Defined.

(** X6.  A carrier "start" frame without a [start] object (the member is
    missing or null) does not reset the session: reading [start.streamSid]
    throws, the error is logged, and the [streamSid] recorded before stays in
    force for the messages that follow. *)
Theorem start_frame_without_start_object_keeps_the_streamSid
    (s : session) (data start interruption : value) :
  path ["event"] data = Normal (Str "start") ->
  get data "start" = Normal start ->
  start = Undefined \/ start = Null ->
  path ["type"] interruption = Normal (Str "interruption") ->
  deliver (TwilioMessage (Parsed data)) s =
    (s, [Console console_error_level
           [Text "[Twilio] Error processing message:"; Err TypeError]])
  /\ trace_of [TwilioMessage (Parsed data); ElevenLabsMessage (Parsed interruption)] s =
     [Console console_error_level
        [Text "[Twilio] Error processing message:"; Err TypeError];
      Send connection (Obj [("event", Str "clear"); ("streamSid", streamSid s)])].
Proof.
  intros Hev Hst Hnull Hint. apply path1_inv in Hev, Hint.
  assert (E : deliver (TwilioMessage (Parsed data)) s =
              (s, [Console console_error_level
                     [Text "[Twilio] Error processing message:"; Err TypeError]])).
  { unfold_js. rewrite Hev. cbn. rewrite Hst. destruct Hnull as [-> | ->]; reflexivity. }
  split; [ exact E | ].
  rewrite trace_of_cons, E. cbn [fst snd]. rewrite trace_of_cons.
  rewrite (interruption_delivery s interruption Hint). reflexivity.
Qed.

Lemma start_frame_without_start_object_witness :
  deliver (TwilioMessage (Parsed (Obj [("event", Str "start")]))) in_call =
    (in_call, [Console console_error_level
                 [Text "[Twilio] Error processing message:"; Err TypeError]])
  /\ trace_of [TwilioMessage (Parsed (Obj [("event", Str "start")]));
               ElevenLabsMessage (Parsed interruption_message)] in_call =
     [Console console_error_level
        [Text "[Twilio] Error processing message:"; Err TypeError];
      Send connection (Obj [("event", Str "clear"); ("streamSid", Str "MZ1")])].
Proof.
  exact (start_frame_without_start_object_keeps_the_streamSid in_call
           (Obj [("event", Str "start")]) Undefined interruption_message
           eq_refl eq_refl (or_introl eq_refl) eq_refl).
Defined.

(** X7.  The readyState test comes before the frame is looked at.  While the
    AI socket is not open, a carrier "media" frame is dropped in silence
    whatever it holds, even when it has no [media] member.  While the socket
    is open, a "media" frame without a [media] object is reported as an error
    and nothing is sent. *)
Theorem media_frame_is_read_only_while_the_ai_socket_is_open
    (s : session) (data : value) :
  path ["event"] data = Normal (Str "media") ->
  (elevenLabsWs_readyState s <> OPEN ->
   deliver (TwilioMessage (Parsed data)) s = (s, []))
  /\ (elevenLabsWs_readyState s = OPEN ->
      get data "media" = Normal Undefined \/ get data "media" = Normal Null ->
      deliver (TwilioMessage (Parsed data)) s =
        (s, [Console console_error_level
               [Text "[Twilio] Error processing message:"; Err TypeError]])).
Proof.
  intros Hev. apply path1_inv in Hev. split.
  - intros Hclosed. unfold_js. rewrite Hev. cbn.
    destruct (elevenLabsWs_readyState s); try reflexivity. contradiction.
  - intros Hopen Hmedia. unfold_js. rewrite Hev. cbn. rewrite Hopen. cbn.
    destruct Hmedia as [-> | ->]; reflexivity.
Qed.

Lemma media_frame_is_read_only_witness :
  deliver (TwilioMessage (Parsed (Obj [("event", Str "media")]))) initial = (initial, [])
  /\ deliver (TwilioMessage (Parsed (Obj [("event", Str "media")]))) in_call =
     (in_call, [Console console_error_level
                  [Text "[Twilio] Error processing message:"; Err TypeError]]).
Proof.
  destruct (media_frame_is_read_only_while_the_ai_socket_is_open
              initial (Obj [("event", Str "media")]) eq_refl) as [Hdrop _].
  destruct (media_frame_is_read_only_while_the_ai_socket_is_open
              in_call (Obj [("event", Str "media")]) eq_refl) as [_ Herr].
  split.
  - apply Hdrop. discriminate.
  - apply Herr; [ reflexivity | left; reflexivity ].
Defined.

(** What a well-formed carrier "media" frame does. *)
Lemma media_delivery (s : session) (data payload : value) :
  path ["event"] data = Normal (Str "media") ->
  path ["media"; "payload"] data = Normal payload ->
  deliver (TwilioMessage (Parsed data)) s =
    (s, if is_OPEN (elevenLabsWs_readyState s)
        then [Send elevenLabsWs (Obj [("user_audio_chunk", payload)])]
        else []).
Proof.
  intros Hev Hpay. apply path1_inv in Hev. apply path2_inv in Hpay as (m & Hm & Hp).
  unfold_js. rewrite Hev. cbn.
  destruct (elevenLabsWs_readyState s); cbn; rewrite ?Hm, ?Hp; reflexivity.
Qed.

(** X8.  Caller audio is relayed one for one and in order.  While the AI
    socket is open, a run of carrier media frames produces exactly one
    [{user_audio_chunk}] message per frame, in arrival order, with nothing
    merged, dropped, reordered or logged, and leaves the session as it was. *)
Theorem caller_audio_is_forwarded_one_for_one_in_order
    (s : session) (chunks : list (value * value)) :
  elevenLabsWs_readyState s = OPEN ->
  Forall carries_chunk chunks ->
  run (from_twilio (map fst chunks)) s =
    (s, map (fun c => Send elevenLabsWs (Obj [("user_audio_chunk", snd c)])) chunks).
Proof.
  intros Hopen Hall. induction Hall as [ | [data payload] rest [Hev Hpay] _ IH ];
    [ reflexivity | ].
  cbn [from_twilio map fst snd run] in *.
  rewrite (media_delivery s data payload Hev Hpay), Hopen. cbn [is_OPEN].
  unfold from_twilio in IH. rewrite IH. reflexivity.
Qed.

Lemma caller_audio_in_order_witness :
  run [TwilioMessage (Parsed (media_frame "AAAA"));
       TwilioMessage (Parsed (media_frame "BBBB"));
       TwilioMessage (Parsed (media_frame "AAAA"))] in_call =
    (in_call, [Send elevenLabsWs (Obj [("user_audio_chunk", Str "AAAA")]);
               Send elevenLabsWs (Obj [("user_audio_chunk", Str "BBBB")]);
               Send elevenLabsWs (Obj [("user_audio_chunk", Str "AAAA")])]).
Proof.
  refine (caller_audio_is_forwarded_one_for_one_in_order in_call
            [(media_frame "AAAA", Str "AAAA"); (media_frame "BBBB", Str "BBBB");
             (media_frame "AAAA", Str "AAAA")] eq_refl _).
  repeat constructor.
Defined.

(** X9.  AI audio is relayed one for one and in order.  A run of AI "audio"
    messages with payloads produces exactly one carrier media frame per
    message, in arrival order, all tagged with the session's current
    [streamSid], and leaves the session as it was. *)
Theorem ai_audio_is_forwarded_one_for_one_in_order
    (s : session) (clips : list (value * value)) :
  Forall carries_audio clips ->
  run (from_elevenLabs (map fst clips)) s =
    (s, map (fun c => Send connection
                        (Obj [("event", Str "media"); ("streamSid", streamSid s);
                              ("media", Obj [("payload", snd c)])])) clips).
Proof.
  intros Hall. induction Hall as [ | [message payload] rest (Htype & Hpay & Htruthy) _ IH ];
    [ reflexivity | ].
  cbn [from_elevenLabs map fst snd run] in *.
  apply path1_inv in Htype. apply path2_inv in Hpay as (ae & Hae & Hb64).
  rewrite (audio_delivery s message ae payload Htype Hae (get_opt_get _ _ _ Hb64)), Htruthy.
  unfold from_elevenLabs in IH. rewrite IH. reflexivity.
Qed.

Lemma ai_audio_in_order_witness :
  run [ElevenLabsMessage (Parsed (audio_message (Str "UklGRg==")));
       ElevenLabsMessage (Parsed (audio_message (Str "AAAA")))] in_call =
    (in_call,
     [Send connection (Obj [("event", Str "media"); ("streamSid", Str "MZ1");
                            ("media", Obj [("payload", Str "UklGRg==")])]);
      Send connection (Obj [("event", Str "media"); ("streamSid", Str "MZ1");
                            ("media", Obj [("payload", Str "AAAA")])])]).
Proof.
  refine (ai_audio_is_forwarded_one_for_one_in_order in_call
            [(audio_message (Str "UklGRg=="), Str "UklGRg==");
             (audio_message (Str "AAAA"), Str "AAAA")] _).
  repeat constructor.
Defined.

(** One event calls [elevenLabsWs.close()] at most once, only on an open
    socket, and leaves the socket closing. *)
Lemma deliver_closes_at_most_once (e : event) (s : session) :
  (count (is_close_of elevenLabsWs) (snd (deliver e s)) = 0
   /\ (is_closing_or_closed (elevenLabsWs_readyState s) = true ->
       is_closing_or_closed (elevenLabsWs_readyState (fst (deliver e s))) = true))
  \/ (count (is_close_of elevenLabsWs) (snd (deliver e s)) = 1
      /\ elevenLabsWs_readyState s = OPEN
      /\ is_closing_or_closed (elevenLabsWs_readyState (fst (deliver e s))) = true).
Proof.
  destruct (elevenLabsWs_readyState s) eqn:Hr;
    destruct e as [ | [text | message] | err | | [text | data] | err | ];
    unfold_js; branches; cbn in *; rewrite ?Hr in *; cbn in *;
    try discriminate;
    first [ left; split; [ reflexivity | intros; first [ assumption | reflexivity ] ]
          | right; repeat split; reflexivity ].
Qed.

Lemma run_closes_at_most_once (es : list event) :
  forall s,
    count (is_close_of elevenLabsWs) (trace_of es s)
    <= (if is_closing_or_closed (elevenLabsWs_readyState s) then 0 else 1).
Proof.
  induction es as [ | e es IH]; intros s.
  - cbn. lia.
  - rewrite trace_of_cons. unfold count in *. rewrite filter_app, length_app.
    specialize (IH (fst (deliver e s))).
    destruct (deliver_closes_at_most_once e s) as [[H0 Hkeep] | (H1 & Hopen & Hshut)];
      unfold count in *.
    + rewrite H0.
      destruct (is_closing_or_closed (elevenLabsWs_readyState s)).
      * rewrite (Hkeep eq_refl) in IH. lia.
      * destruct (is_closing_or_closed (elevenLabsWs_readyState (fst (deliver e s)))); lia.
    + rewrite H1. rewrite Hshut in IH. rewrite Hopen. cbn. lia.
Qed.

(** X10.  In one session the relay calls [elevenLabsWs.close()] at most once,
    whatever the history -- repeated stop frames, a stop followed by the
    carrier's close and error -- and never on a socket that is already
    closing or closed. *)
Theorem the_ai_socket_is_closed_at_most_once (es : list event) (s : session) :
  count (is_close_of elevenLabsWs) (trace_of es s) <= 1
  /\ (is_closing_or_closed (elevenLabsWs_readyState s) = true ->
      count (is_close_of elevenLabsWs) (trace_of es s) = 0).
Proof.
  pose proof (run_closes_at_most_once es s) as H.
  destruct (is_closing_or_closed (elevenLabsWs_readyState s)); split;
    first [ lia | discriminate ].
Qed.

(** A history of AI-socket events alone never calls [elevenLabsWs.close()]. *)
Lemma elevenLabs_events_close_nothing (es : list event) :
  forall s, forallb is_elevenLabs_event es = true ->
    existsb (is_close_of elevenLabsWs) (trace_of es s) = false.
Proof.
  induction es as [ | e es IH]; intros s H; [ reflexivity | ].
  cbn [forallb] in H. apply andb_true_iff in H as [He Hes].
  rewrite trace_of_cons, existsb_app, (IH _ Hes), orb_false_r.
  destruct e as [ | [text | message] | err | | [text | data] | err | ];
    try discriminate He; unfold_js; branches; reflexivity.
Qed.

(** X11.  The AI socket is closed only on a carrier event that finds it open,
    so a connecting AI socket outlives its carrier.  When the carrier socket
    closes while the AI socket is still connecting, nothing is closed; the AI
    socket then opens with the carrier gone, and no later event of the AI
    socket makes the relay close it. *)
Theorem a_connecting_ai_socket_outlives_the_carrier
    (s : session) (later : list event) :
  elevenLabsWs_readyState s = CONNECTING ->
  forallb is_elevenLabs_event later = true ->
  existsb (is_close_of elevenLabsWs) (trace_of (TwilioClose :: later) s) = false
  /\ elevenLabsWs_readyState (state_after [TwilioClose; ElevenLabsOpen] s) = OPEN
  /\ connection_readyState (state_after [TwilioClose; ElevenLabsOpen] s) = CLOSED.
Proof.
  intros Hconn Hlater. split; [ | split ].
  - rewrite trace_of_cons, existsb_app, (elevenLabs_events_close_nothing later _ Hlater).
    unfold_js. cbn. rewrite Hconn. reflexivity.
  - unfold state_after. cbn. rewrite Hconn. reflexivity.
  - unfold state_after. cbn. rewrite Hconn. reflexivity.
Qed.

Lemma a_connecting_ai_socket_witness :
  existsb (is_close_of elevenLabsWs)
    (trace_of [TwilioClose; ElevenLabsOpen;
               ElevenLabsMessage (Parsed (audio_message (Str "AAAA")));
               ElevenLabsMessage (Parsed (ping_message (Num 1%float)))] initial) = false
  /\ elevenLabsWs_readyState (state_after [TwilioClose; ElevenLabsOpen] initial) = OPEN
  /\ connection_readyState (state_after [TwilioClose; ElevenLabsOpen] initial) = CLOSED.
Proof.
  exact (a_connecting_ai_socket_outlives_the_carrier initial
           [ElevenLabsOpen;
            ElevenLabsMessage (Parsed (audio_message (Str "AAAA")));
            ElevenLabsMessage (Parsed (ping_message (Num 1%float)))]
           eq_refl eq_refl).
Defined.

(* ================================================================== *)
(** ** More on the HTTP routes *)

Lemma prefix_drop (p : string) :
  forall u, String.prefix p u = true -> u = (p ++ drop (String.length p) u)%string.
Proof.
  induction p as [ | a p IH]; intros u H; [ reflexivity | ].
  destruct u as [ | b u]; cbn in H; [ discriminate | ].
  destruct (ascii_dec a b) as [<- | ]; [ | discriminate ].
  cbn. f_equal. apply IH, H.
Qed.

(** X12.  [replace(/^https?:\/\//, "")] removes a leading "https://" or
    "http://" and nothing else: the URL is always the removed scheme followed
    by the result, and a URL that starts with neither comes back unchanged. *)
Theorem strip_scheme_removes_exactly_a_leading_scheme (u : string) :
  (String.prefix "https://" u = true /\ u = ("https://" ++ strip_scheme u)%string)
  \/ (String.prefix "https://" u = false /\ String.prefix "http://" u = true
      /\ u = ("http://" ++ strip_scheme u)%string)
  \/ (String.prefix "https://" u = false /\ String.prefix "http://" u = false
      /\ strip_scheme u = u).
Proof.
  unfold strip_scheme.
  destruct (String.prefix "https://" u) eqn:Hs.
  - left. split; [ reflexivity | ]. exact (prefix_drop "https://" u Hs).
  - right. destruct (String.prefix "http://" u) eqn:Hp.
    + left. repeat split. exact (prefix_drop "http://" u Hp).
    + right. repeat split.
Qed.

(** X13.  Without RENDER_EXTERNAL_URL (unset or empty) everything points at
    this machine: the base URL is http://localhost:PORT, the TwiML tells the
    carrier to stream to wss://localhost:PORT/media-stream, and an outbound
    call is given http://localhost:PORT/incoming-call-eleven as its webhook;
    PORT is 8000 when the PORT variable is unset or empty too. *)
Theorem without_an_external_url_everything_points_at_localhost
    (e : env) (calls_create : call_options -> completion value)
    (supportedMethods : list string)
    (r : request) (number : value) :
  is_set (RENDER_EXTERNAL_URL e) = false ->
  method r = "POST" ->
  get (body r) "to" = Normal number ->
  truthy number = true ->
  BASE_URL e = ("http://localhost:" ++ PORT e)%string
  /\ (is_set (env_PORT e) = false -> PORT e = "8000")
  /\ (exists before after : string,
        twimlResponse e
        = (before ++ stream_tag ("localhost:" ++ PORT e) ++ after)%string)
  /\ (exists rest : list effect,
        serve e calls_create supportedMethods "/make-outbound-call" r
        = Some (Normal tt,
                CallsCreate
                  {| url := ("http://localhost:" ++ PORT e ++ "/incoming-call-eleven")%string;
                     to := number;
                     from := env_value (TWILIO_PHONE_NUMBER e) |} :: rest)).
Proof.
  intros Hurl Hm Hto Htruthy.
  assert (Hbase : BASE_URL e = ("http://localhost:" ++ PORT e)%string).
  { unfold BASE_URL, or_else. unfold is_set in Hurl.
    destruct (RENDER_EXTERNAL_URL e) as [u | ]; [ | reflexivity ].
    destruct (u =? "")%string; [ reflexivity | discriminate Hurl ]. }
  split; [ exact Hbase | ]. split; [ | split ].
  - unfold PORT, or_else, is_set.
    destruct (env_PORT e) as [p | ]; [ | reflexivity ].
    destruct (p =? "")%string; [ reflexivity | discriminate ].
  - exists ("<?xml version=" ++ dq ++ "1.0" ++ dq ++ " encoding=" ++ dq ++ "UTF-8" ++ dq
            ++ "?>" ++ nl ++ "    <Response>" ++ nl ++ "      <Connect>" ++ nl
            ++ "        ")%string.
    exists (" />" ++ nl ++ "      </Connect>" ++ nl ++ "    </Response>")%string.
    unfold twimlResponse. rewrite Hbase.
    change ("http://localhost:" ++ PORT e)%string
      with ("http://" ++ ("localhost:" ++ PORT e))%string.
    rewrite strip_scheme_http. reflexivity.
  - unfold serve. rewrite Hm. cbn [find_route routes accepts].
    change (find_route supportedMethods routes "POST" "/make-outbound-call") with (Some MakeOutboundCall).
    unfold make_outbound_call, twilioClient_calls_create, reply.
    cbv [try_catch bind ret eval emit console]. rewrite Hto, Htruthy, Hbase. cbn [negb].
    replace (("http://localhost:" ++ PORT e) ++ "/incoming-call-eleven")%string
      with ("http://localhost:" ++ PORT e ++ "/incoming-call-eleven")%string by reflexivity.
    destruct (calls_create _) as [call | err]; cbn.
    + destruct (get call "sid"); cbn; eexists; reflexivity.
    + eexists; reflexivity.
Qed.

Lemma without_an_external_url_witness :
  BASE_URL local_dev = "http://localhost:8000"
  /\ (exists rest : list effect,
        serve local_dev provider_ok standard_methods "/make-outbound-call"
          (post (Obj [("to", Str "+15551234567")]))
        = Some (Normal tt,
                CallsCreate {| url := "http://localhost:8000/incoming-call-eleven";
                               to := Str "+15551234567";
                               from := Str "+15550000000" |} :: rest)).
Proof.
  destruct (without_an_external_url_everything_points_at_localhost
              local_dev provider_ok standard_methods (post (Obj [("to", Str "+15551234567")]))
              (Str "+15551234567") eq_refl eq_refl eq_refl eq_refl)
    as (Hbase & _ & _ & Hcall).
  split; [ exact Hbase | exact Hcall ].
Defined.

(** Only a POST to /make-outbound-call is routed to the call handler. *)
Lemma find_route_make_outbound_call (supportedMethods : list string) (m path : string) :
  find_route supportedMethods routes m path = Some MakeOutboundCall ->
  path = "/make-outbound-call" /\ m = "POST".
Proof.
  unfold routes. cbn [find_route].
  destruct (("/" =? path)%string && accepts supportedMethods get_ m); [ discriminate | ].
  destruct (("/incoming-call-eleven" =? path)%string && accepts supportedMethods all_ m);
    [ discriminate | ].
  destruct (("/media-stream" =? path)%string && accepts supportedMethods get_ m);
    [ discriminate | ].
  cbn [accepts].
  destruct ("/make-outbound-call" =? path)%string eqn:Hp; cbn [andb]; [ | discriminate ].
  destruct (m =? "POST")%string eqn:Hm; [ | discriminate ].
  intros _. split; [ symmetry; apply String.eqb_eq, Hp | apply String.eqb_eq, Hm ].
Qed.

Lemma serve_make_outbound_call_only_on_post
    (e : env) (calls_create : call_options -> completion value)
    (supportedMethods : list string)
    (path : string) (r : request) (c : completion unit) (t : list effect) :
  serve e calls_create supportedMethods path r = Some (c, t) ->
  existsb is_calls_create t = true ->
  path = "/make-outbound-call" /\ method r = "POST".
Proof.
  unfold serve.
  destruct (find_route supportedMethods routes (method r) path) as [[ | | | ] | ] eqn:Hroute;
    try discriminate.
  - cbn. intros [= <- <-]. discriminate.
  - cbn. intros [= <- <-]. discriminate.
  - intros _ _. apply (find_route_make_outbound_call supportedMethods), Hroute.
Qed.

(** X14.  The server asks the provider for a call only on a POST to
    /make-outbound-call whose body has a truthy "to", and then once: the
    request names that number, the webhook BASE_URL/incoming-call-eleven and
    the configured sender, which is a non-empty string whenever the start-up
    check of the environment passed.  No other route, method or body makes it
    place a call. *)
Theorem provider_calls_come_only_from_posts_with_a_number
    (e : env) (calls_create : call_options -> completion value)
    (supportedMethods : list string)
    (path : string) (r : request) (c : completion unit) (t : list effect)
    (o : call_options) :
  serve e calls_create supportedMethods path r = Some (c, t) ->
  In (CallsCreate o) t ->
  path = "/make-outbound-call"
  /\ method r = "POST"
  /\ get (body r) "to" = Normal (to o)
  /\ truthy (to o) = true
  /\ url o = (BASE_URL e ++ "/incoming-call-eleven")%string
  /\ from o = env_value (TWILIO_PHONE_NUMBER e)
  /\ count is_calls_create t = 1
  /\ (missing_required e = false ->
      exists sender : string, from o = Str sender /\ sender <> "").
Proof.
  intros Hserve Hin.
  assert (Hsome : existsb is_calls_create t = true).
  { apply existsb_exists. exists (CallsCreate o). split; [ exact Hin | reflexivity ]. }
  destruct (serve_make_outbound_call_only_on_post
              e calls_create supportedMethods path r c t Hserve Hsome)
    as [-> Hm].
  split; [ reflexivity | ]. split; [ exact Hm | ].
  revert Hserve. unfold serve. rewrite Hm.
  change (find_route supportedMethods routes "POST" "/make-outbound-call") with (Some MakeOutboundCall).
  unfold make_outbound_call, twilioClient_calls_create, reply.
  cbv [try_catch bind ret eval emit console].
  destruct (get (body r) "to") as [number | err]; [ | intros [= <- <-]; destruct Hin ].
  destruct (truthy number) eqn:Htruthy; cbn [negb].
  2:{ intros [= <- <-]. destruct Hin as [H | []]. discriminate H. }
  assert (Hsender : missing_required e = false ->
            exists sender : string,
              env_value (TWILIO_PHONE_NUMBER e) = Str sender /\ sender <> "").
  { unfold missing_required, is_set.
    destruct (TWILIO_PHONE_NUMBER e) as [n | ].
    - destruct (n =? "")%string eqn:Hn.
      + rewrite !orb_true_r. discriminate.
      + intros _. exists n. split; [ reflexivity | ]. apply String.eqb_neq, Hn.
    - rewrite !orb_true_r. discriminate. }
  destruct (calls_create _) as [call | err]; cbn;
    [ destruct (get call "sid") as [sid | err]; cbn | ];
    intros [= <- <-];
    destruct Hin as [H | [H | [H | []]]]; try discriminate H;
    injection H as <-; cbn [to url from];
    repeat split; try assumption; reflexivity.
Qed.

Lemma provider_calls_witness :
  method (post (Obj [("to", Str "+15551234567")])) = "POST"
  /\ truthy (Str "+15551234567") = true
  /\ (exists sender : string, Str "+15550000000" = Str sender /\ sender <> "").
Proof.
  destruct (provider_calls_come_only_from_posts_with_a_number
              production provider_ok standard_methods "/make-outbound-call"
              (post (Obj [("to", Str "+15551234567")]))
              (Normal tt)
              [CallsCreate {| url := "https://relay.onrender.com/incoming-call-eleven";
                              to := Str "+15551234567";
                              from := Str "+15550000000" |};
               Console console_log_level
                 [Text "[Twilio] Outbound call initiated: "; Val (Str "CA123")];
               Reply 200 None
                 (Obj [("message", Str "Call initiated"); ("callSid", Str "CA123")])]
              {| url := "https://relay.onrender.com/incoming-call-eleven";
                 to := Str "+15551234567";
                 from := Str "+15550000000" |}
              eq_refl (or_introl eq_refl))
    as (_ & Hm & _ & Ht & _ & _ & _ & Hs).
  split; [ exact Hm | ]. split; [ exact Ht | ]. exact (Hs eq_refl).
Defined.

(** The call handler on a request whose body can be read. *)
Lemma make_outbound_call_with_a_body
    (e : env) (calls_create : call_options -> completion value)
    (r : request) (number : value) :
  get (body r) "to" = Normal number ->
  exists (before : list effect) (status : Z) (payload : value),
    make_outbound_call e calls_create r tt
    = (Normal tt, tt, before ++ [Reply status None payload])
    /\ (status = 200%Z \/ status = 400%Z \/ status = 500%Z)
    /\ count is_reply before = 0
    /\ count is_calls_create before <= 1.
Proof.
  intros Hto.
  unfold make_outbound_call, twilioClient_calls_create, reply.
  cbv [try_catch bind ret eval emit console]. rewrite Hto.
  destruct (truthy number); cbn [negb].
  - destruct (calls_create _) as [call | err]; cbn.
    + destruct (get call "sid") as [sid | err]; cbn.
      * eexists [_; _], 200%Z, _. cbn. repeat split; auto.
      * eexists [_; _], 500%Z, _. cbn. repeat split; auto.
    + eexists [_; _], 500%Z, _. cbn. repeat split; auto.
  - exists [], 400%Z. eexists. cbn. repeat split; auto.
Qed.

(** X15.  POST /make-outbound-call answers exactly once, as its last act,
    whenever the request has a body: whatever the body's "to" is and whatever
    the provider does -- it creates the call, fails, or yields something
    without a readable [sid] -- the handler completes normally with exactly
    one reply, of status 200, 400 or 500, after at most one provider call.
    When the body is undefined or null, reading "to" throws outside the try
    block: the handler ends in a TypeError and has neither replied nor called
    the provider. *)
Theorem make_outbound_call_replies_exactly_once_given_a_body
    (e : env) (calls_create : call_options -> completion value)
    (supportedMethods : list string) (r : request) :
  method r = "POST" ->
  match body r with
  | Undefined | Null =>
      serve e calls_create supportedMethods "/make-outbound-call" r = Some (Throw TypeError, [])
  | _ =>
      exists (before : list effect) (status : Z) (payload : value),
        serve e calls_create supportedMethods "/make-outbound-call" r
        = Some (Normal tt, before ++ [Reply status None payload])
        /\ (status = 200%Z \/ status = 400%Z \/ status = 500%Z)
        /\ count is_reply before = 0
        /\ count is_calls_create before <= 1
  end.
Proof.
  intros Hm.
  assert (E : serve e calls_create supportedMethods "/make-outbound-call" r =
              let '(c, _, t) := make_outbound_call e calls_create r tt in Some (c, t)).
  { unfold serve. rewrite Hm. reflexivity. }
  rewrite E. clear E.
  assert (Hbody : forall number, get (body r) "to" = Normal number ->
            exists (before : list effect) (status : Z) (payload : value),
              (let '(c, _, t) := make_outbound_call e calls_create r tt in Some (c, t))
              = Some (Normal tt, before ++ [Reply status None payload])
              /\ (status = 200%Z \/ status = 400%Z \/ status = 500%Z)
              /\ count is_reply before = 0
              /\ count is_calls_create before <= 1).
  { intros number Hto.
    destruct (make_outbound_call_with_a_body e calls_create r number Hto)
      as (before & status & payload & -> & Hrest).
    exists before, status, payload. split; [ reflexivity | exact Hrest ]. }
  destruct (body r) eqn:Hb; try (eapply Hbody; reflexivity);
    unfold make_outbound_call; cbv [bind eval]; rewrite Hb; reflexivity.
Qed.

Lemma make_outbound_call_replies_once_witness :
  (exists (before : list effect) (status : Z) (payload : value),
     serve production provider_down standard_methods "/make-outbound-call"
       (post (Obj [("to", Str "+15551234567")]))
     = Some (Normal tt, before ++ [Reply status None payload])
     /\ (status = 200%Z \/ status = 400%Z \/ status = 500%Z)
     /\ count is_reply before = 0
     /\ count is_calls_create before <= 1)
  /\ serve production provider_ok standard_methods "/make-outbound-call" (post Null)
     = Some (Throw TypeError, []).
Proof.
  split.
  - exact (make_outbound_call_replies_exactly_once_given_a_body
             production provider_down standard_methods (post (Obj [("to", Str "+15551234567")])) eq_refl).
  - exact (make_outbound_call_replies_exactly_once_given_a_body
             production provider_ok standard_methods (post Null) eq_refl).
Defined.

(* ================================================================== *)
(** ** More on the messages of the AI socket *)

(** X16.  An AI message whose [type] is none of "audio", "interruption" and
    "ping" reaches neither socket and leaves the session alone: a
    "conversation_initiation_metadata" message is logged, any other type, or
    a message without a [type], is dropped without a trace. *)
Theorem other_ai_messages_are_not_relayed (s : session) (message type : value) :
  get message "type" = Normal type ->
  is_str type "audio" = false ->
  is_str type "interruption" = false ->
  is_str type "ping" = false ->
  deliver (ElevenLabsMessage (Parsed message)) s =
    (s, if is_str type "conversation_initiation_metadata"
        then [Console console_info_level [Text "[II] Conversation initiated."]]
        else []).
Proof.
  intros Ht Ha Hi Hp. unfold_js. rewrite Ht. cbn.
  destruct (is_str type "conversation_initiation_metadata"); [ reflexivity | ].
  rewrite Ha, Hi, Hp. reflexivity.
Qed.

Lemma other_ai_messages_witness :
  deliver (ElevenLabsMessage
             (Parsed (Obj [("type", Str "conversation_initiation_metadata")]))) in_call
  = (in_call, [Console console_info_level [Text "[II] Conversation initiated."]])
  /\ deliver (ElevenLabsMessage (Parsed (Obj [("type", Str "agent_response")]))) in_call
  = (in_call, [])
  /\ deliver (ElevenLabsMessage (Parsed (Arr [Str "audio"]))) in_call = (in_call, []).
Proof.
  split; [ | split ].
  - exact (other_ai_messages_are_not_relayed in_call
             (Obj [("type", Str "conversation_initiation_metadata")])
             (Str "conversation_initiation_metadata") eq_refl eq_refl eq_refl eq_refl).
  - exact (other_ai_messages_are_not_relayed in_call
             (Obj [("type", Str "agent_response")]) (Str "agent_response")
             eq_refl eq_refl eq_refl eq_refl).
  - exact (other_ai_messages_are_not_relayed in_call (Arr [Str "audio"]) Undefined
             eq_refl eq_refl eq_refl eq_refl).
Defined.

(** X17.  The AI-side handler reports an error exactly for a frame that is
    not JSON or that parses to null.  Every other JSON value is handled
    without a throw whatever members it lacks: the optional reads of
    [audio_event] and [ping_event] keep an audio message without an
    [audio_event], or a ping without a [ping_event], from raising. *)
Theorem ai_messages_raise_only_when_unparseable_or_null (data : frame) (s : session) :
  existsb is_error_log (snd (deliver (ElevenLabsMessage data) s)) =
    match data with
    | Unparseable _ | Parsed Null | Parsed Undefined => true
    | Parsed _ => false
    end.
Proof.
  destruct data as [text | message]; [ reflexivity | ].
  destruct message; try reflexivity; unfold_js; cbn [get]; branches; try reflexivity.
  all:
    (* an optional read never throws, and the plain read it guards neither *)
    match goal with
    | Ho : get_opt ?v ?k = Throw _ |- _ => destruct v; discriminate Ho
    | Ho : get_opt ?v ?k = Normal ?a, Ht : truthy ?a = true, Hg : get ?v ?k = Throw _ |- _ =>
        destruct v; cbn in Ho, Hg; try discriminate Hg;
        injection Ho as <-; discriminate Ht
    end.
Qed.
